(** * Credential persistence and service initialisation of the ARTLEE CRM

    A shallow embedding of the credential-persistence code of the
    repository (the Retell AI credential configuration module, the
    fallback storage service for API keys as its functions are recorded in
    the repository's persistence notes, and the global service initialiser)
    together with the properties the specification states about them.

    Part I holds the definitions, Part II the theorems. *)

From Stdlib Require Import String Ascii ZArith List Bool Lia.
From stdpp Require Import base option list gmap strings.
Import ListNotations.

Local Open Scope string_scope.

(* ===================================================================== *)
(** * Part I: definitions                                                  *)
(* ===================================================================== *)

(** ** JavaScript values used by the code *)

Module JS.

(** [s.startsWith(p)] *)
Definition startsWith (s p : string) : bool := String.prefix p s.

(** Truthiness of a value of type [string | undefined]: [undefined] and
    the empty string are falsy. *)
Definition truthy (v : option string) : bool :=
  match v with
  | Some s => negb (String.eqb s "")
  | None => false
  end.

(** [v && v.startsWith(p)], coerced to a boolean. *)
Definition and_startsWith (v : option string) (p : string) : bool :=
  match v with
  | Some s => negb (String.eqb s "") && startsWith s p
  | None => false
  end.

(** JSON-serialisable values: what is written into jsonb columns, into
    [window] properties and, once stringified, into browser storage. *)
#[local] Unset Elimination Schemes.
Inductive json : Type :=
| JNull
| JStr (s : string)
| JNum (z : Z)
| JObj (fields : list (string * json)).
#[local] Set Elimination Schemes.

(** Equality of two non-null scalar values, as a key column compares them. *)
Definition scalar_eqb (a b : json) : bool :=
  match a, b with
  | JStr s, JStr t => String.eqb s t
  | JNum x, JNum y => Z.eqb x y
  | _, _ => false
  end.

(** Property access [o.k]; [None] is [undefined]. *)
Fixpoint assoc (k : string) (fields : list (string * json)) : option json :=
  match fields with
  | [] => None
  | (k', v) :: rest => if String.eqb k k' then Some v else assoc k rest
  end.

Definition get (o : option json) (k : string) : option json :=
  match o with
  | Some (JObj fields) => assoc k fields
  | _ => None
  end.

(** Truthiness of a JSON value ([undefined], [null], the empty string and
    zero are falsy; every object is truthy). *)
Definition truthy_json (v : option json) : bool :=
  match v with
  | None | Some JNull => false
  | Some (JStr s) => negb (String.eqb s "")
  | Some (JNum z) => negb (Z.eqb z 0)
  | Some (JObj _) => true
  end.

(** The string held by a JSON value that is typed [string?]. *)
Definition text (v : option json) : option string :=
  match v with
  | Some (JStr s) => Some s
  | _ => None
  end.

(** A field typed [string?] written into an object literal: [undefined]
    fields are dropped by serialisation, so they are left out. *)
Definition field (k : string) (v : option string) : list (string * json) :=
  match v with
  | Some s => [(k, JStr s)]
  | None => []
  end.

End JS.

(** ** Retell AI credentials configuration *)

Record RetellCredentials : Type := {
  apiKey : string;
  callAgentId : string;
  smsAgentId : string
}.

(** [Partial<RetellCredentials>]: every field may be [undefined]. *)
Module Partial.
Record t : Type := {
  apiKey : option string;
  callAgentId : option string;
  smsAgentId : option string
}.
End Partial.

Definition HARDCODED_RETELL_CREDENTIALS : RetellCredentials := {|
  apiKey := "key_3660938283961c067186004a50e3";
  callAgentId := "agent_ca2a01536c2e94d0ff4e50df70";
  smsAgentId := ""
|}.

Definition validateCredentials (credentials : Partial.t) : bool :=
  if negb (JS.truthy (Partial.apiKey credentials))
     && negb (JS.truthy (Partial.callAgentId credentials))
     && negb (JS.truthy (Partial.smsAgentId credentials))
  then true
  else
    let hasValidApiKey := JS.and_startsWith (Partial.apiKey credentials) "key_" in
    let hasValidCallAgent := JS.and_startsWith (Partial.callAgentId credentials) "agent_" in
    let hasValidSmsAgent :=
      negb (JS.truthy (Partial.smsAgentId credentials))
      || match Partial.smsAgentId credentials with
         | Some s => JS.startsWith s "agent_"
         | None => false
         end in
    hasValidApiKey && hasValidCallAgent && hasValidSmsAgent.

Definition getBulletproofCredentials : RetellCredentials :=
  {| apiKey := apiKey HARDCODED_RETELL_CREDENTIALS;
     callAgentId := callAgentId HARDCODED_RETELL_CREDENTIALS;
     smsAgentId := smsAgentId HARDCODED_RETELL_CREDENTIALS |}.

(** The validity invariant in the words of the data model: the API key and
    the call agent id are present and carry their prefixes; the SMS agent id
    is absent or empty, or carries the agent prefix. *)
Definition valid_as_specified (c : Partial.t) : bool :=
  JS.and_startsWith (Partial.apiKey c) "key_"
  && JS.and_startsWith (Partial.callAgentId c) "agent_"
  && (negb (JS.truthy (Partial.smsAgentId c))
      || JS.and_startsWith (Partial.smsAgentId c) "agent_").

(** Every field is absent or the empty string. *)
Definition all_empty (c : Partial.t) : bool :=
  negb (JS.truthy (Partial.apiKey c))
  && negb (JS.truthy (Partial.callAgentId c))
  && negb (JS.truthy (Partial.smsAgentId c)).

(** ** Collaborators outside the repository

    The JSON codec of the platform, the encryption service and the
    formatting of dates are used by the code but not defined by it; the
    development is parametric in them. *)

Class Externals : Type := {
  (** [JSON.stringify] *)
  JSON_stringify : JS.json -> string;
  (** [JSON.parse]; [None] when it throws *)
  JSON_parse : string -> option JS.json;
  (** [encryptionService.encryptString]; [None] when it throws *)
  encryptString : string -> option string;
  (** [encryptionService.decryptString]; [None] when it throws *)
  decryptString : string -> option string;
  (** [new Date(t).toISOString()] *)
  toISOString : Z -> string
}.

(** ** Browser storage tiers *)

Module Browser.

(** A [Storage] object. [setItem] throws when the quota is exhausted. *)
Record Storage : Type := {
  items : gmap string string;
  quota_exceeded : bool
}.

Definition getItem (key : string) (s : Storage) : option string :=
  items s !! key.

Definition setItem (key value : string) (s : Storage) : option Storage :=
  if quota_exceeded s then None
  else Some {| items := <[key := value]> (items s);
               quota_exceeded := quota_exceeded s |}.

(** The globals the code tests with [typeof x !== 'undefined']; [None] is
    an undefined global. [window] holds the properties the code sets on
    the global object; [clock] is what [Date.now()] returns. *)
Record t : Type := {
  localStorage : option Storage;
  sessionStorage : option Storage;
  window : option (gmap string JS.json);
  clock : Z
}.

Definition with_localStorage (s : Storage) (b : t) : t :=
  {| localStorage := Some s; sessionStorage := sessionStorage b;
     window := window b; clock := clock b |}.

Definition with_sessionStorage (s : Storage) (b : t) : t :=
  {| localStorage := localStorage b; sessionStorage := Some s;
     window := window b; clock := clock b |}.

Definition with_window (g : gmap string JS.json) (b : t) : t :=
  {| localStorage := localStorage b; sessionStorage := sessionStorage b;
     window := Some g; clock := clock b |}.

Definition with_clock (now : Z) (b : t) : t :=
  {| localStorage := localStorage b; sessionStorage := sessionStorage b;
     window := window b; clock := now |}.

End Browser.

(** ** The cloud database, as seen through the query client *)

Module Supabase.

Inductive PostgrestError : Type :=
| UniqueViolation (constraint : list string)
    (** 409: duplicate key value violates unique constraint *)
| SchemaCacheMiss (column : string)
    (** 400: could not find the column in the schema cache *)
| NoConflictTarget
    (** no unique constraint matches the ON CONFLICT specification *)
| NotSingleRow (found : nat)
    (** [.single()] on zero rows or on more than one *)
| FetchFailed.
    (** the request did not reach the database *)

(** A table: its rows (column name to value; an absent column is NULL), the
    primary key, every unique constraint (the primary key included), the
    column defaults applied on insert and the columns the query layer's
    schema cache knows. A generated primary key is left out: a row without
    it never conflicts on it. *)
Record Table : Type := {
  rows : list (gmap string JS.json);
  primary_key : list string;
  unique : list (list string);
  defaults : gmap string JS.json;
  schema_cache : list string
}.

Definition with_rows (l : list (gmap string JS.json)) (t : Table) : Table :=
  {| rows := l; primary_key := primary_key t; unique := unique t;
     defaults := defaults t; schema_cache := schema_cache t |}.

Definition mem (c : string) (l : list string) : bool :=
  existsb (String.eqb c) l.

Fixpoint cols_eqb (a b : list string) : bool :=
  match a, b with
  | [], [] => true
  | x :: a', y :: b' => String.eqb x y && cols_eqb a' b'
  | _, _ => false
  end.

(** Two rows agree on every column of [cols], none of them NULL. *)
Definition agree (cols : list string) (r1 r2 : gmap string JS.json) : bool :=
  forallb (fun c =>
             match r1 !! c, r2 !! c with
             | Some a, Some b => JS.scalar_eqb a b
             | _, _ => false
             end) cols.

(** The rows satisfy the unique constraint on [cols]. *)
Fixpoint distinct_on (cols : list string) (l : list (gmap string JS.json)) : bool :=
  match l with
  | [] => true
  | r :: rest => negb (existsb (agree cols r) rest) && distinct_on cols rest
  end.

Definition first_violation (t : Table) (l : list (gmap string JS.json))
  : option (list string) :=
  find (fun cols => negb (distinct_on cols l)) (unique t).

(** [.from(t).upsert(values, { onConflict })]. Without [onConflict] the
    conflict target is the primary key. A row that agrees with [values] on
    the conflict target is updated in the supplied columns; otherwise
    [values], completed by the column defaults, is inserted. Either way
    every unique constraint is enforced on the outcome. *)
Definition update (target : list string) (new r : gmap string JS.json)
  : gmap string JS.json :=
  if agree target new r then new ∪ r else r.

Definition candidate (target : list string) (new : gmap string JS.json) (t : Table)
  : list (gmap string JS.json) :=
  if existsb (agree target new) (rows t)
  then map (update target new) (rows t)
  else (rows t ++ [new ∪ defaults t])%list.

Definition upsert (values : list (string * JS.json)) (onConflict : option (list string))
    (t : Table) : PostgrestError + Table :=
  match find (fun c => negb (mem c (schema_cache t))) (map fst values) with
  | Some c => inl (SchemaCacheMiss c)
  | None =>
      let target := default (primary_key t) onConflict in
      if negb (existsb (cols_eqb target) (unique t)) then inl NoConflictTarget
      else
        let rows' := candidate target (list_to_map values) t in
        match first_violation t rows' with
        | Some cols => inl (UniqueViolation cols)
        | None => inr (with_rows rows' t)
        end
  end.

(** A schema with, besides the generated primary key [id], one unique
    constraint, on the columns [target]. *)
Definition keyed_by (target : list string) (t : Table) : Prop :=
  unique t = [["id"]; target] /\ defaults t !! "id" = None.

(** The rows respect both constraints of such a schema. *)
Definition consistent (target : list string) (t : Table) : Prop :=
  distinct_on ["id"] (rows t) = true /\ distinct_on target (rows t) = true.

(** One [.eq(column, value)] filter. *)
Definition eq_filter (r : gmap string JS.json) (f : string * string) : bool :=
  match r !! f.1 with
  | Some (JS.JStr s) => String.eqb s f.2
  | _ => false
  end.

(** The number of rows of user [u]. *)
Definition rows_of_user (u : string) (l : list (gmap string JS.json)) : nat :=
  length (List.filter (fun r => eq_filter r ("user_id", u)) l).

Definition project (cols : list string) (r : gmap string JS.json) : gmap string JS.json :=
  list_to_map (omap (fun c => pair c <$> r !! c) cols).

(** [.from(t).select(cols).eq(..)...eq(..).single()] *)
Definition select_single (cols : list string) (filters : list (string * string))
    (t : Table) : PostgrestError + gmap string JS.json :=
  match find (fun c => negb (mem c (schema_cache t))) (cols ++ map fst filters)%list with
  | Some c => inl (SchemaCacheMiss c)
  | None =>
      match List.filter (fun r => forallb (eq_filter r) filters) (rows t) with
      | [r] => inr (project cols r)
      | l => inl (NotSingleRow (length l))
      end
  end.

(** The database: reachable or not, and the two tables of the credential
    tiers. *)
Record t : Type := {
  online : bool;
  user_profiles : Table;
  user_settings : Table
}.

Definition with_user_profiles (tb : Table) (db : t) : t :=
  {| online := online db; user_profiles := tb; user_settings := user_settings db |}.

Definition with_user_settings (tb : Table) (db : t) : t :=
  {| online := online db; user_profiles := user_profiles db; user_settings := tb |}.

(** A request: fails without touching the table when the database is
    unreachable. *)
Definition request {A : Type} (db : t) (k : PostgrestError + A) : PostgrestError + A :=
  if online db then k else inl FetchFailed.

End Supabase.

(** ** The state all tiers live in *)

Record World : Type := {
  browser : Browser.t;
  cloud : Supabase.t
}.

Definition with_browser (b : Browser.t) (w : World) : World :=
  {| browser := b; cloud := cloud w |}.

Definition with_cloud (db : Supabase.t) (w : World) : World :=
  {| browser := browser w; cloud := db |}.

(** The same world at a later reading of the clock. *)
Definition at_time (now : Z) (w : World) : World :=
  with_browser (Browser.with_clock now (browser w)) w.

(** ** Statements that may throw

    A computation either completes normally with a value or throws; in both
    cases the writes it made before are kept. *)

Inductive JsError : Type :=
| PostgrestFailure (e : Supabase.PostgrestError)
| QuotaExceededError
| ReferenceError
| NoStoredData
| SyntaxError
| CryptoError.

Inductive completion (A : Type) : Type :=
| Normal (a : A)
| Thrown (e : JsError).
Arguments Normal {A} a.
Arguments Thrown {A} e.

Definition Js (A : Type) : Type := World -> completion A * World.

Definition ret {A : Type} (a : A) : Js A := fun w => (Normal a, w).

Definition throw {A : Type} (e : JsError) : Js A := fun w => (Thrown e, w).

Definition bind {A B : Type} (m : Js A) (k : A -> Js B) : Js B :=
  fun w =>
    match m w with
    | (Normal a, w') => k a w'
    | (Thrown e, w') => (Thrown e, w')
    end.

(** [try { body } catch (error) { handler(error) }] *)
Definition try_catch {A : Type} (body : Js A) (handler : JsError -> Js A) : Js A :=
  fun w =>
    match body w with
    | (Normal a, w') => (Normal a, w')
    | (Thrown e, w') => handler e w'
    end.

Declare Scope js_scope.
Delimit Scope js_scope with js.
Notation "x <- m ;; k" := (bind m (fun x => k))
  (at level 100, m at next level, right associativity) : js_scope.
Notation "m ;;; k" := (bind m (fun _ => k))
  (at level 100, right associativity) : js_scope.

(** ** Hardcoded credential persistence *)

Module CREDENTIAL_STORAGE_KEYS.
Definition LOCALSTORAGE_PREFIX : string := "settings_".
Definition SESSION_BACKUP_KEY : string := "retell_credentials_backup".
Definition MEMORY_BACKUP_KEY : string := "__retellCredentialsBackup".
Definition SUPABASE_SYSTEM_DEFAULTS : string := "system_retell_defaults".
Definition SUPABASE_USER_SETTINGS : string := "user_settings".
Definition EMERGENCY_RECOVERY_KEY : string := "__emergencyRetellCredentials".
Definition FALLBACK_CONFIG_KEY : string := "__fallbackRetellConfig".
End CREDENTIAL_STORAGE_KEYS.

(** [localStorage.getItem('justLoggedOut') === 'true'], under the guard
    [typeof localStorage !== 'undefined']. *)
Definition justLoggedOut (w : World) : bool :=
  match Browser.localStorage (browser w) with
  | Some ls =>
      match Browser.getItem "justLoggedOut" ls with
      | Some v => String.eqb v "true"
      | None => false
      end
  | None => false
  end.

(** [{ ...credentials, timestamp: Date.now(), source: 'hardcoded_persistence' }] *)
Definition backup_record (credentials : RetellCredentials) (now : Z) : JS.json :=
  JS.JObj [("apiKey", JS.JStr (apiKey credentials));
           ("callAgentId", JS.JStr (callAgentId credentials));
           ("smsAgentId", JS.JStr (smsAgentId credentials));
           ("timestamp", JS.JNum now);
           ("source", JS.JStr "hardcoded_persistence")].

(** [sessionStorage.setItem(key, value)], skipped where the global is
    undefined. *)
Definition sessionStorage_setItem (key value : string) : Js unit :=
  fun w =>
    match Browser.sessionStorage (browser w) with
    | None => (Normal tt, w)
    | Some ss =>
        match Browser.setItem key value ss with
        | Some ss' => (Normal tt, with_browser (Browser.with_sessionStorage ss' (browser w)) w)
        | None => (Thrown QuotaExceededError, w)
        end
    end.

Definition localStorage_setItem (key value : string) : Js unit :=
  fun w =>
    match Browser.localStorage (browser w) with
    | None => (Normal tt, w)
    | Some ls =>
        match Browser.setItem key value ls with
        | Some ls' => (Normal tt, with_browser (Browser.with_localStorage ls' (browser w)) w)
        | None => (Thrown QuotaExceededError, w)
        end
    end.

(** [(window as any)[key] = value], skipped where [window] is undefined. *)
Definition window_set (key : string) (value : JS.json) : Js unit :=
  fun w =>
    match Browser.window (browser w) with
    | None => (Normal tt, w)
    | Some g => (Normal tt, with_browser (Browser.with_window (<[key := value]> g) (browser w)) w)
    end.

Definition Date_now : Js Z := fun w => (Normal (Browser.clock (browser w)), w).

Section CredentialPersistence.
Context `{Externals}.
Local Open Scope js_scope.

Definition storeCredentialsEverywhere (credentials : RetellCredentials) : World -> World :=
  fun w =>
    snd (try_catch
           (if justLoggedOut w then ret tt
            else
              t1 <- Date_now ;;
              sessionStorage_setItem CREDENTIAL_STORAGE_KEYS.SESSION_BACKUP_KEY
                (JSON_stringify (backup_record credentials t1)) ;;;
              t2 <- Date_now ;;
              window_set CREDENTIAL_STORAGE_KEYS.MEMORY_BACKUP_KEY
                (backup_record credentials t2) ;;;
              t3 <- Date_now ;;
              localStorage_setItem CREDENTIAL_STORAGE_KEYS.EMERGENCY_RECOVERY_KEY
                (JSON_stringify (backup_record credentials t3)))
           (fun _ => ret tt) w).

Definition initializeCredentialPersistence : World -> World :=
  fun w =>
    if justLoggedOut w then w
    else
      let credentials := getBulletproofCredentials in
      storeCredentialsEverywhere credentials w.

End CredentialPersistence.

(** ** Tenant configuration *)

Module TENANT_CONFIG.
Definition CURRENT_TENANT : string := "artlee".
Module TENANTS.
Definition CAREXPS : string := "carexps".
Definition MEDEX : string := "medex".
Definition ARTLEE : string := "artlee".
Definition PHAETON_AI : string := "phaeton_ai".
End TENANTS.
End TENANT_CONFIG.

Definition getCurrentTenantId : string := TENANT_CONFIG.CURRENT_TENANT.

(** ** Test-credential detection

    The check the settings component makes on the credentials it finds in
    local storage before it uses them: a reserved prefix on any field. *)

Definition isTestCredentials (settings : Partial.t) : bool :=
  match Partial.apiKey settings with
  | Some k => JS.startsWith k "test_key_"
  | None => false
  end
  || JS.and_startsWith (Partial.callAgentId settings) "test_call_agent_"
  || JS.and_startsWith (Partial.smsAgentId settings) "test_sms_agent_".

(** ** The fallback storage service for API keys

    Its storage and retrieval methods, as the persistence notes of the
    repository record them. *)

Module ApiKeyFallbackService.

Record ApiKeys : Type := {
  retell_api_key : option string;
  call_agent_id : option string;
  sms_agent_id : option string
}.

Definition EncryptedKeys : Type := ApiKeys.

Inductive Status : Type := success | error.

(** [{ status, data?, error? }] *)
Record Result (A : Type) : Type := {
  status : Status;
  data : option A;
  error_of : option JsError
}.
Arguments status {A} _.
Arguments data {A} _.
Arguments error_of {A} _.

Definition succeeded {A : Type} (d : option A) : Result A :=
  {| status := success; data := d; error_of := None |}.

Definition failed {A : Type} (e : JsError) : Result A :=
  {| status := error; data := None; error_of := Some e |}.

Definition is_success {A : Type} (r : Result A) : bool :=
  match status r with success => true | error => false end.

Definition keys_object (k : ApiKeys) : JS.json :=
  JS.JObj (JS.field "retell_api_key" (retell_api_key k)
           ++ JS.field "call_agent_id" (call_agent_id k)
           ++ JS.field "sms_agent_id" (sms_agent_id k))%list.

(** Modelled from the spec: the assembly of the agent-config object, which
    the notes use but do not show; the two agent identifiers, in clear,
    gathered into one object (design, save path, step 2). *)
Definition agentConfig_of (apiKeys : ApiKeys) : JS.json :=
  JS.JObj (JS.field "call_agent_id" (call_agent_id apiKeys)
           ++ JS.field "sms_agent_id" (sms_agent_id apiKeys))%list.

Section Service.
Context `{Externals}.

Definition now_iso (w : World) : JS.json :=
  JS.JStr (toISOString (Browser.clock (browser w))).

(** The row [storeInUserProfiles] hands to [upsert]. *)
Definition user_profiles_values (userId : string) (apiKeys : ApiKeys)
    (encryptedKeys : EncryptedKeys) (w : World) : list (string * JS.json) :=
  ([("user_id", JS.JStr userId)]
   ++ JS.field "encrypted_retell_api_key" (retell_api_key encryptedKeys)
   ++ [("encrypted_agent_config", agentConfig_of apiKeys);
       ("updated_at", now_iso w)])%list.

Definition upsert_user_profiles (values : list (string * JS.json))
    (onConflict : option (list string)) (w : World) : Result unit * World :=
  match Supabase.request (cloud w)
          (Supabase.upsert values onConflict (Supabase.user_profiles (cloud w))) with
  | inl e => (failed (PostgrestFailure e), w)
  | inr tb => (succeeded None, with_cloud (Supabase.with_user_profiles tb (cloud w)) w)
  end.

Definition upsert_user_settings (values : list (string * JS.json))
    (onConflict : option (list string)) (w : World) : Result unit * World :=
  match Supabase.request (cloud w)
          (Supabase.upsert values onConflict (Supabase.user_settings (cloud w))) with
  | inl e => (failed (PostgrestFailure e), w)
  | inr tb => (succeeded None, with_cloud (Supabase.with_user_settings tb (cloud w)) w)
  end.

(** [storeInUserProfiles] with the conflict clause of the fix:
    [.upsert({...}, { onConflict: 'user_id' })]. *)
Definition storeInUserProfiles (userId : string) (apiKeys : ApiKeys)
    (encryptedKeys : EncryptedKeys) (w : World) : Result unit * World :=
  upsert_user_profiles (user_profiles_values userId apiKeys encryptedKeys w)
    (Some ["user_id"]) w.

(** [storeInUserProfiles] as it was before the fix: [.upsert({...})]
    without a conflict clause. *)
Definition storeInUserProfiles_before_fix (userId : string) (apiKeys : ApiKeys)
    (encryptedKeys : EncryptedKeys) (w : World) : Result unit * World :=
  upsert_user_profiles (user_profiles_values userId apiKeys encryptedKeys w) None w.

(** The write of [storePartialInUserProfiles] into [user_settings]. *)
Definition storePartialInUserProfiles (userId : string) (apiKeys : ApiKeys)
    (encryptedKeys : EncryptedKeys) (w : World) : Result unit * World :=
  upsert_user_settings
    [("user_id", JS.JStr userId);
     ("tenant_id", JS.JStr getCurrentTenantId);
     ("retell_agent_config", agentConfig_of apiKeys);
     ("encrypted_retell_keys", keys_object encryptedKeys);
     ("api_key_updated_at", now_iso w);
     ("updated_at", now_iso w)]
    None w.

Definition storeInUserSettings (userId : string) (apiKeys : ApiKeys)
    (encryptedKeys : EncryptedKeys) (w : World) : Result unit * World :=
  let retellConfig :=
    JS.JObj (JS.field "api_key" (retell_api_key apiKeys)
             ++ JS.field "call_agent_id" (call_agent_id apiKeys)
             ++ JS.field "sms_agent_id" (sms_agent_id apiKeys))%list in
  upsert_user_settings
    [("user_id", JS.JStr userId);
     ("tenant_id", JS.JStr getCurrentTenantId);
     ("retell_config", retellConfig);
     ("encrypted_api_keys", keys_object encryptedKeys);
     ("api_key_updated_at", now_iso w);
     ("updated_at", now_iso w)]
    None w.

Definition storageKey (userId : string) : string := "apikeys_" +:+ userId.

Definition storeInLocalStorage (userId : string) (encryptedKeys : EncryptedKeys)
    (w : World) : Result unit * World :=
  let dataToStore :=
    JS.JObj [("encrypted_keys", keys_object encryptedKeys);
             ("stored_at", now_iso w);
             ("storage_method", JS.JStr "localStorage_fallback")] in
  match Browser.localStorage (browser w) with
  | None => (failed ReferenceError, w)
  | Some ls =>
      match Browser.setItem (storageKey userId) (JSON_stringify dataToStore) ls with
      | Some ls' =>
          (succeeded None, with_browser (Browser.with_localStorage ls' (browser w)) w)
      | None => (failed QuotaExceededError, w)
      end
  end.

(** Modelled from the spec: the body of [retrieveFromLocalStorage] past the
    [getItem] call, which the notes do not show; the stored envelope is
    parsed and the three fields of its [encrypted_keys] object are returned
    as the local tier holds them. *)
Definition retrieveFromLocalStorage (userId : string) (w : World) : Result ApiKeys :=
  match Browser.localStorage (browser w) with
  | None => failed ReferenceError
  | Some ls =>
      match Browser.getItem (storageKey userId) ls with
      | None => failed NoStoredData
      | Some storedData =>
          match JSON_parse storedData with
          | None => failed SyntaxError
          | Some parsed =>
              let keys := JS.get (Some parsed) "encrypted_keys" in
              succeeded (Some {| retell_api_key := JS.text (JS.get keys "retell_api_key");
                                 call_agent_id := JS.text (JS.get keys "call_agent_id");
                                 sms_agent_id := JS.text (JS.get keys "sms_agent_id") |})
          end
      end
  end.

(** [.from('user_profiles').select(..).eq('user_id', userId)
      .eq('tenant_id', getCurrentTenantId()).single()] *)
Definition query_user_profiles (userId : string) (w : World)
  : Supabase.PostgrestError + gmap string JS.json :=
  Supabase.request (cloud w)
    (Supabase.select_single ["encrypted_retell_api_key"; "encrypted_agent_config"]
       [("user_id", userId); ("tenant_id", getCurrentTenantId)]
       (Supabase.user_profiles (cloud w))).

(** [if (v) target = v]: a falsy value leaves the field unset. *)
Definition if_truthy (v : option string) : option string :=
  if JS.truthy v then v else None.

(** [retrieveFromUserProfiles] with the local-storage fallback of the fix,
    in the text of the proposed fixes: the [catch] block too reads local
    storage. *)
Definition retrieveFromUserProfiles (userId : string) (w : World) : Result ApiKeys :=
  let on_error (e : JsError) : Result ApiKeys :=
    let localStorageResult := retrieveFromLocalStorage userId w in
    if is_success localStorageResult then localStorageResult else failed e in
  match query_user_profiles userId w with
  | inl e => on_error (PostgrestFailure e)
  | inr row =>
      let decrypted : option (option string) :=
        if JS.truthy_json (row !! "encrypted_retell_api_key")
        then match JS.text (row !! "encrypted_retell_api_key") with
             | Some c => match decryptString c with
                         | Some p => Some (Some p)
                         | None => None
                         end
             | None => None
             end
        else Some None in
      match decrypted with
      | None => on_error CryptoError
      | Some api_key =>
          let agentConfig := row !! "encrypted_agent_config" in
          let hasCallAgent := JS.truthy_json (JS.get agentConfig "call_agent_id") in
          let hasSmsAgent := JS.truthy_json (JS.get agentConfig "sms_agent_id") in
          if negb hasCallAgent && negb hasSmsAgent then
            let localStorageResult := retrieveFromLocalStorage userId w in
            match is_success localStorageResult, data localStorageResult with
            | true, Some l =>
                succeeded (Some {| retell_api_key := api_key;
                                   call_agent_id := if_truthy (call_agent_id l);
                                   sms_agent_id := if_truthy (sms_agent_id l) |})
            | _, _ =>
                succeeded (Some {| retell_api_key := api_key;
                                   call_agent_id := None;
                                   sms_agent_id := None |})
            end
          else
            succeeded (Some {| retell_api_key := api_key;
                               call_agent_id :=
                                 if hasCallAgent
                                 then JS.text (JS.get agentConfig "call_agent_id") else None;
                               sms_agent_id :=
                                 if hasSmsAgent
                                 then JS.text (JS.get agentConfig "sms_agent_id") else None |})
      end
  end.

(** [if (data?.encrypted_retell_api_key) apiKeys.retell_api_key = await
    encryptionService.decryptString(..)]: the key the row yields, unset
    when the column is falsy; [None] when the decryption throws. *)
Definition decrypted_key (row : gmap string JS.json) : option (option string) :=
  if JS.truthy_json (row !! "encrypted_retell_api_key")
  then match JS.text (row !! "encrypted_retell_api_key") with
       | Some c => match decryptString c with
                   | Some p => Some (Some p)
                   | None => None
                   end
       | None => None
       end
  else Some None.

(** [retrieveFromUserProfiles] with the fix in the text of the root-cause
    analysis: the same [try] block, but the [catch] block returns the error
    without reading local storage. *)
Definition retrieveFromUserProfiles_as_recommended (userId : string) (w : World)
  : Result ApiKeys :=
  match query_user_profiles userId w with
  | inl e => failed (PostgrestFailure e)
  | inr row =>
      match decrypted_key row with
      | None => failed CryptoError
      | Some api_key =>
          let agentConfig := row !! "encrypted_agent_config" in
          let hasCallAgent := JS.truthy_json (JS.get agentConfig "call_agent_id") in
          let hasSmsAgent := JS.truthy_json (JS.get agentConfig "sms_agent_id") in
          if negb hasCallAgent && negb hasSmsAgent then
            let localStorageResult := retrieveFromLocalStorage userId w in
            match is_success localStorageResult, data localStorageResult with
            | true, Some l =>
                succeeded (Some {| retell_api_key := api_key;
                                   call_agent_id := if_truthy (call_agent_id l);
                                   sms_agent_id := if_truthy (sms_agent_id l) |})
            | _, _ =>
                succeeded (Some {| retell_api_key := api_key;
                                   call_agent_id := None;
                                   sms_agent_id := None |})
            end
          else
            succeeded (Some {| retell_api_key := api_key;
                               call_agent_id :=
                                 if hasCallAgent
                                 then JS.text (JS.get agentConfig "call_agent_id") else None;
                               sms_agent_id :=
                                 if hasSmsAgent
                                 then JS.text (JS.get agentConfig "sms_agent_id") else None |})
      end
  end.

(** [retrieveFromUserSettings]: the tenant-scoped query on [user_settings]
    and the credentials read from its [retell_config] column. *)
Definition retrieveFromUserSettings (userId : string) (w : World) : Result ApiKeys :=
  match Supabase.request (cloud w)
          (Supabase.select_single ["retell_config"; "encrypted_api_keys"]
             [("user_id", userId); ("tenant_id", getCurrentTenantId)]
             (Supabase.user_settings (cloud w))) with
  | inl e => failed (PostgrestFailure e)
  | inr row =>
      let retell_config := row !! "retell_config" in
      succeeded (Some {| retell_api_key := JS.text (JS.get retell_config "api_key");
                         call_agent_id := JS.text (JS.get retell_config "call_agent_id");
                         sms_agent_id := JS.text (JS.get retell_config "sms_agent_id") |})
  end.

End Service.

End ApiKeyFallbackService.

(** ** The credential reconciler

    The orchestration of the save. The notes of the repository list the
    order in which the storage methods are tried but not the body of the
    orchestrating function; [save] follows the design's numbered algorithm
    and calls the tier methods above. *)

Module Reconciler.
Import ApiKeyFallbackService.

Inductive StorageTier : Type :=
| memory | session | local | cloud_primary | cloud_secondary.

Inductive Outcome : Type :=
| accepted
| skipped
| failure (reason : JsError).

Record TenantScope : Type := {
  tenantId : string;
  userId : option string
}.

(** The outcome of a save: the tier that accepted the data, the credential
    set, the per-tier outcomes. *)
Record ReconciliationResult : Type := {
  tier : option StorageTier;
  credentials : Partial.t;
  outcomes : list (StorageTier * Outcome)
}.


Definition is_accepted (o : Outcome) : bool :=
  match o with accepted => true | _ => false end.

Definition is_failure (o : Outcome) : bool :=
  match o with failure _ => true | _ => false end.


Definition outcome_of (r : Result unit) : Outcome :=
  match status r, error_of r with
  | success, _ => accepted
  | error, Some e => failure e
  | error, None => failure SyntaxError
  end.

Definition to_ApiKeys (c : Partial.t) : ApiKeys :=
  {| retell_api_key := Partial.apiKey c;
     call_agent_id := Partial.callAgentId c;
     sms_agent_id := Partial.smsAgentId c |}.


Definition no_credentials : Partial.t :=
  {| Partial.apiKey := None; Partial.callAgentId := None; Partial.smsAgentId := None |}.


Section WithExternals.
Context `{Externals}.

(** Modelled from the spec: the encryption step of the cloud writes, which
    the notes do not show; only the API key goes through the codec, and an
    absent key needs none (design, save path step 2, and the codec's
    contract). [None] when the codec throws. *)
Definition encrypt_keys (apiKeys : ApiKeys) : option EncryptedKeys :=
  match retell_api_key apiKeys with
  | None => Some {| retell_api_key := None; call_agent_id := None; sms_agent_id := None |}
  | Some k =>
      match encryptString k with
      | Some c => Some {| retell_api_key := Some c; call_agent_id := None;
                          sms_agent_id := None |}
      | None => None
      end
  end.

(** Modelled from the spec: step 2 of the save path, the cloud-primary
    write: encrypt the API key, then upsert the profile row with conflict
    resolution on the user id. *)
Definition write_cloud_primary (u : string) (apiKeys : ApiKeys) (w : World)
  : Outcome * World :=
  match encrypt_keys apiKeys with
  | None => (failure CryptoError, w)
  | Some encryptedKeys =>
      let '(r, w') := storeInUserProfiles u apiKeys encryptedKeys w in
      (outcome_of r, w')
  end.

(** Modelled from the spec: step 3 of the save path: the partial
    cloud-primary write of the API key alone, then the cloud-secondary
    write of the agent identifiers, scoped by user and tenant, with conflict
    resolution on the composite key. The columns of the secondary write are
    those of [storePartialInUserProfiles]. *)
Definition write_cloud_secondary (u : string) (apiKeys : ApiKeys) (w : World)
  : Outcome * World :=
  match encrypt_keys apiKeys with
  | None => (failure CryptoError, w)
  | Some encryptedKeys =>
      let '(r1, w1) :=
        upsert_user_profiles
          ([("user_id", JS.JStr u)]
           ++ JS.field "encrypted_retell_api_key" (retell_api_key encryptedKeys)
           ++ [("updated_at", now_iso w)])%list
          (Some ["user_id"]) w in
      if is_success r1 then
        let '(r2, w2) :=
          upsert_user_settings
            [("user_id", JS.JStr u);
             ("tenant_id", JS.JStr getCurrentTenantId);
             ("retell_agent_config", agentConfig_of apiKeys);
             ("encrypted_retell_keys", keys_object encryptedKeys);
             ("api_key_updated_at", now_iso w1);
             ("updated_at", now_iso w1)]
            (Some ["user_id"; "tenant_id"]) w1 in
        (outcome_of r2, w2)
      else (outcome_of r1, w1)
  end.

(** Modelled from the spec: step 4 of the save path: the full credential
    set goes to the local durable tier under the per-user key. *)
Definition write_local (u : string) (apiKeys : ApiKeys) (w : World) : Outcome * World :=
  let '(r, w') := storeInLocalStorage u apiKeys w in
  (outcome_of r, w').

(** Modelled from the spec: step 5 of the save path: the session and the
    memory tier are written as caches; a failure there is swallowed. *)
Definition mirror (c : Partial.t) (w : World) : World :=
  let record :=
    JS.JObj (JS.field "apiKey" (Partial.apiKey c)
             ++ JS.field "callAgentId" (Partial.callAgentId c)
             ++ JS.field "smsAgentId" (Partial.smsAgentId c)
             ++ [("timestamp", JS.JNum (Browser.clock (browser w)))])%list in
  let w1 :=
    snd (try_catch
           (sessionStorage_setItem CREDENTIAL_STORAGE_KEYS.SESSION_BACKUP_KEY
              (JSON_stringify record))
           (fun _ => ret tt) w) in
  snd (try_catch (window_set CREDENTIAL_STORAGE_KEYS.MEMORY_BACKUP_KEY record)
         (fun _ => ret tt) w1).

Definition rejected : ReconciliationResult :=
  {| tier := None; credentials := no_credentials; outcomes := [] |}.

(** Modelled from the spec: the save path of the design (steps 1 to 6):
    reject without a write when the user id is absent or the logout flag is
    set; try cloud-primary, then cloud-secondary, then local, each only
    when the one before failed; mirror into session and memory; report the
    outcome of every persistent tier that was attempted. *)
Definition save (scope : TenantScope) (c : Partial.t) (w : World)
  : ReconciliationResult * World :=
  match userId scope with
  | None => (rejected, w)
  | Some u =>
      if justLoggedOut w then (rejected, w)
      else
        let apiKeys := to_ApiKeys c in
        let '(o1, w1) := write_cloud_primary u apiKeys w in
        if is_accepted o1 then
          ({| tier := Some cloud_primary; credentials := c;
              outcomes := [(cloud_primary, o1)] |}, mirror c w1)
        else
          let '(o2, w2) := write_cloud_secondary u apiKeys w1 in
          if is_accepted o2 then
            ({| tier := Some cloud_secondary; credentials := c;
                outcomes := [(cloud_primary, o1); (cloud_secondary, o2)] |},
             mirror c w2)
          else
            let '(o3, w3) := write_local u apiKeys w2 in
            ({| tier := if is_accepted o3 then Some local else None;
                credentials := c;
                outcomes := [(cloud_primary, o1); (cloud_secondary, o2); (local, o3)] |},
             mirror c w3)
  end.

End WithExternals.

End Reconciler.

(** ** The global service initialiser *)

Module GlobalServiceInitializer.

Inductive PromiseState : Type := pending | fulfilled | rejected.

(** The two static fields of the class, the promises that calls of
    [performInitialization] have created (a promise is named by its
    position) and the number of times its body has been entered. *)
Record State : Type := {
  initialized : bool;
  initPromise : option nat;
  promises : list PromiseState;
  body_runs : nat
}.

Definition initial : State :=
  {| initialized := false; initPromise := None; promises := []; body_runs := 0 |}.

(** What a body meets while it runs: whether the two awaited calls
    resolve, and whether the global [window] exists where it runs. *)
Record Services : Type := {
  loadCredentialsAsync_resolves : bool;
  syncWithRetellService_resolves : bool;
  window_defined : bool
}.

(** What a call returns: nothing, or the promise it hands back. *)
Inductive Returned : Type :=
| undefined
| promise (p : nat).

(** Entering [performInitialization]: the body starts and the call yields
    its promise, pending until the body reaches its end. *)
Definition performInitialization (st : State) : nat * State :=
  (length (promises st),
   {| initialized := initialized st;
      initPromise := initPromise st;
      promises := (promises st ++ [pending])%list;
      body_runs := S (body_runs st) |}).

(** The [catch] block of the body: the error is logged and thrown again,
    which rejects the promise [p]; the flag is left as it is. *)
Definition body_throws (p : nat) (st : State) : State :=
  {| initialized := initialized st;
     initPromise := initPromise st;
     promises := <[p := rejected]> (promises st);
     body_runs := body_runs st |}.

(** The body of the run behind promise [p] reaching its end. A failure of
    [loadCredentialsAsync] is caught inside; a failure of
    [syncWithRetellService] is thrown on. Where [window] is defined the
    block that exposes the two services throws too: no semicolon separates
    its [console.log(..)] from the parenthesis that opens the next
    statement, so the two read as one call of what [console.log] returned,
    a [TypeError]. Otherwise the flag is set and the promise fulfilled. *)
Definition body_completes (p : nat) (s : Services) (st : State) : State :=
  match promises st !! p with
  | Some pending =>
      if syncWithRetellService_resolves s then
        if window_defined s then body_throws p st
        else
          {| initialized := true;
             initPromise := initPromise st;
             promises := <[p := fulfilled]> (promises st);
             body_runs := body_runs st |}
      else body_throws p st
  | _ => st
  end.

Definition initialize (st : State) : Returned * State :=
  if initialized st then (undefined, st)
  else
    match initPromise st with
    | Some p => (promise p, st)
    | None =>
        let '(p, st') := performInitialization st in
        (promise p,
         {| initialized := initialized st';
            initPromise := Some p;
            promises := promises st';
            body_runs := body_runs st' |})
    end.

Definition forceReinitialize (st : State) : Returned * State :=
  initialize {| initialized := false;
                initPromise := None;
                promises := promises st;
                body_runs := body_runs st |}.

Definition isInitialized (st : State) : bool := initialized st.

(** What can happen, one at a time, on the event loop. *)
Inductive Event : Type :=
| call_initialize
| call_forceReinitialize
| completion_of (p : nat) (s : Services).

Definition step (st : State) (e : Event) : State :=
  match e with
  | call_initialize => snd (initialize st)
  | call_forceReinitialize => snd (forceReinitialize st)
  | completion_of p s => body_completes p s st
  end.

Definition run (events : list Event) (st : State) : State :=
  fold_left step events st.

Definition is_force (e : Event) : bool :=
  match e with call_forceReinitialize => true | _ => false end.

(** The shape of every state reached without [forceReinitialize]: at most
    one promise exists, it is the memoised one, and the flag is set only
    once it is fulfilled. *)
Definition single_flight (st : State) : Prop :=
  body_runs st = length (promises st)
  /\ match initPromise st with
     | None => promises st = [] /\ initialized st = false
     | Some p => p = 0 /\ length (promises st) = 1
                 /\ (initialized st = true -> promises st = [fulfilled])
     end.

End GlobalServiceInitializer.

(** ** The status snapshot of the initialiser *)

Module ServiceStatus.

(** What the getters of the services answer when [getStatus] asks them;
    [None] is a getter that throws. [window_services] is [None] where the
    global [window] is undefined (reading a property of it throws), and
    otherwise tells whether the two services are set on it. *)
Record Getters : Type := {
  retell_isConfigured : option bool;
  chat_isConfigured : option bool;
  window_services : option (bool * bool);
  getApiKey : option (option string);
  getCallAgentId : option (option string);
  getSmsAgentId : option (option string)
}.

Record Credentials : Type := {
  hasApiKey : bool;
  hasCallAgent : bool;
  hasSmsAgent : bool
}.

(** The object [getStatus] returns; the two availability fields and the
    error message are absent from one or the other of its two shapes. *)
Record Status : Type := {
  initialized : bool;
  retellConfigured : bool;
  chatConfigured : bool;
  profileSyncAvailable : option bool;
  avatarStorageAvailable : option bool;
  credentials : Credentials;
  has_error : bool
}.

Definition fallback : Status :=
  {| initialized := false;
     retellConfigured := false;
     chatConfigured := false;
     profileSyncAvailable := None;
     avatarStorageAvailable := None;
     credentials := {| hasApiKey := false; hasCallAgent := false; hasSmsAgent := false |};
     has_error := true |}.

Definition getStatus (st : GlobalServiceInitializer.State) (g : Getters) : Status :=
  match retell_isConfigured g, chat_isConfigured g, window_services g,
        getApiKey g, getCallAgentId g, getSmsAgentId g with
  | Some rc, Some cc, Some (ps, av), Some k, Some a, Some s =>
      {| initialized := GlobalServiceInitializer.initialized st;
         retellConfigured := rc;
         chatConfigured := cc;
         profileSyncAvailable := Some ps;
         avatarStorageAvailable := Some av;
         credentials := {| hasApiKey := JS.truthy k;
                           hasCallAgent := JS.truthy a;
                           hasSmsAgent := JS.truthy s |};
         has_error := false |}
  | _, _, _, _, _, _ => fallback
  end.

End ServiceStatus.

(** ** The stored procedure of the settings table

    [update_user_api_keys], the database function the notes give for the
    settings table. *)

(** A value of the SQL type [uuid], the type of the procedure's
    [p_user_id]: 128 bits, of [bits] those of lowest weight. *)
Module Uuid.

Record t : Type := { bits : N }.

Definition hex_digit (n : N) : ascii :=
  match n with
  | 0 => "0" | 1 => "1" | 2 => "2" | 3 => "3" | 4 => "4" | 5 => "5" | 6 => "6"
  | 7 => "7" | 8 => "8" | 9 => "9" | 10 => "a" | 11 => "b" | 12 => "c"
  | 13 => "d" | 14 => "e" | _ => "f"
  end%N%char.

(** The [digits] hexadecimal digits of lowest weight of [n], before [rest]. *)
Fixpoint hex (digits : nat) (n : N) (rest : string) : string :=
  match digits with
  | O => rest
  | S k => hex k (N.div n 16) (String (hex_digit (N.modulo n 16)) rest)
  end.

(** The text of the value, as a [uuid] column reads through the query
    client: 32 hexadecimal digits in groups of 8, 4, 4, 4 and 12. *)
Definition text (u : t) : string :=
  let digits := hex 32 (bits u) "" in
  substring 0 8 digits +:+ "-" +:+ substring 8 4 digits +:+ "-"
  +:+ substring 12 4 digits +:+ "-" +:+ substring 16 4 digits +:+ "-"
  +:+ substring 20 12 digits.

End Uuid.

Module Rpc.
Import Supabase ApiKeyFallbackService.

(** [INSERT INTO user_settings (..) VALUES (..) ON CONFLICT (user_id,
    tenant_id) DO UPDATE SET ..]; [NOW] is the database's [NOW()]. The
    statement runs inside the database: the schema cache of the query layer
    plays no part. On conflict the four assigned columns take the new
    values; the two key columns hold them already. *)
Definition update_user_api_keys (p_user_id : Uuid.t) (p_tenant_id : string)
    (p_retell_config p_encrypted_api_keys NOW : JS.json) (t : Table)
  : PostgrestError + Table :=
  let target := ["user_id"; "tenant_id"] in
  if negb (existsb (cols_eqb target) (unique t)) then inl NoConflictTarget
  else
    let rows' :=
      candidate target
        (list_to_map [("user_id", JS.JStr (Uuid.text p_user_id));
                      ("tenant_id", JS.JStr p_tenant_id);
                      ("retell_config", p_retell_config);
                      ("encrypted_api_keys", p_encrypted_api_keys);
                      ("api_key_updated_at", NOW);
                      ("updated_at", NOW)]) t in
    match first_violation t rows' with
    | Some cols => inl (UniqueViolation cols)
    | None => inr (with_rows rows' t)
    end.

(** The rows of the table that belong to the user under the tenant. *)
Definition rows_of (u tenant : string) (l : list (gmap string JS.json))
  : list (gmap string JS.json) :=
  List.filter (fun r => eq_filter r ("user_id", u) && eq_filter r ("tenant_id", tenant)) l.

(** All the other rows. *)
Definition rows_of_others (u tenant : string) (l : list (gmap string JS.json))
  : list (gmap string JS.json) :=
  List.filter
    (fun r => negb (eq_filter r ("user_id", u) && eq_filter r ("tenant_id", tenant))) l.

End Rpc.

(** ** Observations

    What the further properties read off a world or a state of the
    initialiser. *)

Module Observations.

(** What a browser tier holds under a key; [None] also where the tier is
    undefined. *)
Definition local_get (key : string) (w : World) : option string :=
  Browser.localStorage (browser w) ≫= Browser.getItem key.

Definition session_get (key : string) (w : World) : option string :=
  Browser.sessionStorage (browser w) ≫= Browser.getItem key.

Definition memory_get (key : string) (w : World) : option JS.json :=
  Browser.window (browser w) ≫= (fun g => g !! key).

(** The world with other rows in the profile table, or in the settings
    table. *)
Definition with_profile_rows (l : list (gmap string JS.json)) (w : World) : World :=
  with_cloud
    (Supabase.with_user_profiles
       (Supabase.with_rows l (Supabase.user_profiles (cloud w))) (cloud w)) w.

Definition with_settings_rows (l : list (gmap string JS.json)) (w : World) : World :=
  with_cloud
    (Supabase.with_user_settings
       (Supabase.with_rows l (Supabase.user_settings (cloud w))) (cloud w)) w.

(** The shape of every reachable state of the initialiser,
    [forceReinitialize] included; [k] is the number of forced restarts so
    far. *)
Definition counted (k : nat) (st : GlobalServiceInitializer.State) : Prop :=
  GlobalServiceInitializer.body_runs st = length (GlobalServiceInitializer.promises st)
  /\ k <= GlobalServiceInitializer.body_runs st <= S k
  /\ (GlobalServiceInitializer.initPromise st = None ->
      GlobalServiceInitializer.promises st = []
      /\ GlobalServiceInitializer.initialized st = false)
  /\ (forall p, GlobalServiceInitializer.initPromise st = Some p ->
                p < length (GlobalServiceInitializer.promises st)).

Definition forces (events : list GlobalServiceInitializer.Event) : nat :=
  length (List.filter GlobalServiceInitializer.is_force events).

End Observations.

(** ** Sample data

    Concrete collaborators, tables and worlds on which the statements
    below are exercised. *)

Module Sample.
Import ApiKeyFallbackService.

(** The envelope a browser holds for a user whose agent id was saved to
    local storage only. *)
Definition envelope_agent_y : JS.json :=
  JS.JObj [("encrypted_keys", JS.JObj [("call_agent_id", JS.JStr "agent_y")]);
           ("stored_at", JS.JStr "2025-10-28T09:00:00.000Z");
           ("storage_method", JS.JStr "localStorage_fallback")].

(** The envelope of a browser that holds synthetic credentials. *)
Definition envelope_test : JS.json :=
  JS.JObj [("encrypted_keys",
            JS.JObj [("retell_api_key", JS.JStr "test_key_123");
                     ("call_agent_id", JS.JStr "test_call_agent_1");
                     ("sms_agent_id", JS.JStr "test_sms_agent_1")]);
           ("stored_at", JS.JStr "2025-10-28T09:00:00.000Z");
           ("storage_method", JS.JStr "localStorage_fallback")].

(** A codec that knows the two documents above by name, a cipher that
    tags its plaintext, and a fixed rendering of dates. *)
Definition collaborators : Externals := {|
  JSON_stringify := fun _ => "{}";
  JSON_parse := fun s =>
    if String.eqb s "envelope_agent_y" then Some envelope_agent_y
    else if String.eqb s "envelope_test" then Some envelope_test
    else None;
  encryptString := fun s => Some ("cbc:" +:+ s);
  decryptString := fun s =>
    if String.prefix "cbc:" s then Some (String.substring 4 (String.length s - 4) s)
    else None;
  toISOString := fun _ => "2025-10-28T12:00:00.000Z"
|}.

Definition user_U : string := "edd07847-d90a-4b1a-9904-e6bc752ff501".

(** The same user as a value of the column's type. *)
Definition uuid_U : Uuid.t := {| Uuid.bits := 0xedd07847d90a4b1a9904e6bc752ff501 |}.

Definition profiles_columns : list string :=
  ["id"; "user_id"; "tenant_id"; "encrypted_retell_api_key";
   "encrypted_agent_config"; "updated_at"].

Definition settings_columns : list string :=
  ["id"; "user_id"; "tenant_id"; "retell_config"; "retell_agent_config";
   "encrypted_retell_keys"; "encrypted_api_keys"; "updated_at"].

(** The profile table: unique on the user id, as its constraint
    [user_profiles_user_id_key] says. *)
Definition profiles (rows : list (gmap string JS.json)) : Supabase.Table :=
  {| Supabase.rows := rows;
     Supabase.primary_key := ["id"];
     Supabase.unique := [["id"]; ["user_id"]];
     Supabase.defaults := {[ "tenant_id" := JS.JStr "artlee" ]};
     Supabase.schema_cache := profiles_columns |}.

(** The settings table, its schema cache stale: the column
    [api_key_updated_at] exists but is not known to the query layer. *)
Definition settings (rows : list (gmap string JS.json)) : Supabase.Table :=
  {| Supabase.rows := rows;
     Supabase.primary_key := ["id"];
     Supabase.unique := [["id"]; ["user_id"; "tenant_id"]];
     Supabase.defaults := ∅;
     Supabase.schema_cache := settings_columns |}.

Definition database (online : bool) (profile_rows : list (gmap string JS.json))
  : Supabase.t :=
  {| Supabase.online := online;
     Supabase.user_profiles := profiles profile_rows;
     Supabase.user_settings := settings [] |}.

Definition storage (l : list (string * string)) : Browser.Storage :=
  {| Browser.items := list_to_map l; Browser.quota_exceeded := false |}.

Definition a_browser (local_items : list (string * string)) : Browser.t :=
  {| Browser.localStorage := Some (storage local_items);
     Browser.sessionStorage := Some (storage []);
     Browser.window := Some ∅;
     Browser.clock := 1761652800000 |}.

Definition world (local_items : list (string * string)) (online : bool)
    (profile_rows : list (gmap string JS.json)) : World :=
  {| browser := a_browser local_items; cloud := database online profile_rows |}.

(** The profile row of user U: the encrypted key, an empty agent config. *)
Definition row_key_x (tenant : string) : gmap string JS.json :=
  list_to_map [("id", JS.JNum 1); ("user_id", JS.JStr user_U);
               ("tenant_id", JS.JStr tenant);
               ("encrypted_retell_api_key", JS.JStr "cbc:key_x");
               ("encrypted_agent_config", JS.JObj [])].

(** The state the persistence notes describe: the schema cache knows
    neither the agent-config column of the profile table nor the
    [api_key_updated_at] column of the settings table. *)
Definition stale_world : World :=
  {| browser := a_browser [];
     cloud :=
       {| Supabase.online := true;
          Supabase.user_profiles :=
            {| Supabase.rows := [];
               Supabase.primary_key := ["id"];
               Supabase.unique := [["id"]; ["user_id"]];
               Supabase.defaults := {[ "tenant_id" := JS.JStr "artlee" ]};
               Supabase.schema_cache :=
                 ["id"; "user_id"; "tenant_id"; "encrypted_retell_api_key";
                  "updated_at"] |};
          Supabase.user_settings := settings [] |} |}.



Definition keys_abc : ApiKeys :=
  {| retell_api_key := Some "key_abc"; call_agent_id := Some "agent_1";
     sms_agent_id := None |}.

Definition encrypted_abc : EncryptedKeys :=
  {| retell_api_key := Some "cbc:key_abc"; call_agent_id := None;
     sms_agent_id := None |}.

End Sample.

(* ===================================================================== *)
(** * Part II: theorems                                                    *)
(* ===================================================================== *)

Lemma and_startsWith_spec (v : option string) (p : string) :
  JS.and_startsWith v p =
  JS.truthy v && match v with Some s => JS.startsWith s p | None => false end.
Proof. destruct v as [s|]; reflexivity. Qed.

Example validate_hardcoded :
  validateCredentials {| Partial.apiKey := Some (apiKey HARDCODED_RETELL_CREDENTIALS);
                         Partial.callAgentId := Some (callAgentId HARDCODED_RETELL_CREDENTIALS);
                         Partial.smsAgentId := Some (smsAgentId HARDCODED_RETELL_CREDENTIALS) |}
  = true.
Proof. reflexivity. Qed.

Example validate_bad_prefix :
  validateCredentials {| Partial.apiKey := Some "sk_123";
                         Partial.callAgentId := Some "agent_1";
                         Partial.smsAgentId := None |} = false.
Proof. reflexivity. Qed.

(** C7 (as stated, refuted): the all-absent credential set violates the
    stated validity conditions (no API key, no call agent id), yet
    [validateCredentials] accepts it. *)
Lemma C7_counterexample_all_absent :
  let c := {| Partial.apiKey := None; Partial.callAgentId := None;
              Partial.smsAgentId := None |} in
  valid_as_specified c = false /\ validateCredentials c = true.
Proof. split; reflexivity. Qed.

(** C7 (amended): [validateCredentials] returns true exactly when either
    every field is absent or empty, or the API key is present with the
    [key_] prefix, the call agent id is present with the [agent_] prefix and
    the SMS agent id is absent, empty or carries the [agent_] prefix. *)
Theorem C7_validateCredentials_characterised (c : Partial.t) :
  validateCredentials c = all_empty c || valid_as_specified c.
Proof.
  unfold validateCredentials, all_empty, valid_as_specified.
  destruct c as [[k|] [a|] [s|]]; cbn [Partial.apiKey Partial.callAgentId Partial.smsAgentId];
    rewrite ?and_startsWith_spec; cbn [JS.truthy];
    repeat match goal with
           | |- context [String.eqb ?x ""] => destruct (String.eqb x "")
           end; cbn [negb andb orb];
    rewrite ?andb_true_r, ?andb_false_r, ?orb_false_r; try reflexivity.
Qed.

(** C9: when the API key, the call agent id and the SMS agent id are all
    absent or empty strings, [validateCredentials] returns true. *)
Theorem C9_validateCredentials_accepts_all_empty (c : Partial.t) :
  (Partial.apiKey c = None \/ Partial.apiKey c = Some "") ->
  (Partial.callAgentId c = None \/ Partial.callAgentId c = Some "") ->
  (Partial.smsAgentId c = None \/ Partial.smsAgentId c = Some "") ->
  validateCredentials c = true
  /\ JS.and_startsWith (Partial.apiKey c) "key_" = false
  /\ JS.and_startsWith (Partial.callAgentId c) "agent_" = false.
Proof.
  intros [Hk|Hk] [Ha|Ha] [Hs|Hs]; unfold validateCredentials;
    rewrite Hk, Ha, Hs; repeat split; reflexivity.
Qed.

Lemma C9_witness_empty_strings :
  let c := {| Partial.apiKey := Some ""; Partial.callAgentId := None;
              Partial.smsAgentId := Some "" |} in
  validateCredentials c = true
  /\ JS.and_startsWith (Partial.apiKey c) "key_" = false
  /\ JS.and_startsWith (Partial.callAgentId c) "agent_" = false.
Proof.
  apply (C9_validateCredentials_accepts_all_empty
           {| Partial.apiKey := Some ""; Partial.callAgentId := None;
              Partial.smsAgentId := Some "" |});
    cbn; auto.
Defined.

(** ** The logout guard *)

Lemma justLoggedOut_spec (w : World) :
  justLoggedOut w = true <->
  exists ls, Browser.localStorage (browser w) = Some ls
             /\ Browser.getItem "justLoggedOut" ls = Some "true".
Proof.
  unfold justLoggedOut. split.
  - destruct (Browser.localStorage (browser w)) as [ls|]; [|discriminate].
    destruct (Browser.getItem "justLoggedOut" ls) as [v|] eqn:Hv; [|discriminate].
    intros Heq. apply String.eqb_eq in Heq. subst v. eauto.
  - intros (ls & -> & ->). reflexivity.
Qed.

(** C4: while the flag [justLoggedOut] is set in local storage, storing the
    credentials writes to no tier: the session storage, the memory backup,
    the local storage and the cloud tables are all as they were, for
    [storeCredentialsEverywhere] and for [initializeCredentialPersistence]. *)
Theorem C4_logout_guard_no_writes `{Externals} (credentials : RetellCredentials)
    (w : World) (ls : Browser.Storage) :
  Browser.localStorage (browser w) = Some ls ->
  Browser.getItem "justLoggedOut" ls = Some "true" ->
  storeCredentialsEverywhere credentials w = w
  /\ initializeCredentialPersistence w = w.
Proof.
  intros Hls Hflag.
  assert (Hout : justLoggedOut w = true) by (apply justLoggedOut_spec; eauto).
  unfold initializeCredentialPersistence, storeCredentialsEverywhere, try_catch.
  rewrite Hout. split; reflexivity.
Qed.

Lemma C4_witness_logged_out :
  let w := Sample.world [("justLoggedOut", "true")] true [] in
  @storeCredentialsEverywhere Sample.collaborators HARDCODED_RETELL_CREDENTIALS w = w
  /\ @initializeCredentialPersistence Sample.collaborators w = w.
Proof.
  apply (@C4_logout_guard_no_writes Sample.collaborators HARDCODED_RETELL_CREDENTIALS
           (Sample.world [("justLoggedOut", "true")] true [])
           (Sample.storage [("justLoggedOut", "true")])).
  - reflexivity.
  - vm_compute. reflexivity.
Defined.

(** Without the flag the three backups are written. *)
Example storeCredentialsEverywhere_writes :
  let w := @storeCredentialsEverywhere Sample.collaborators HARDCODED_RETELL_CREDENTIALS
             (Sample.world [] true []) in
  (Browser.sessionStorage (browser w) ≫= Browser.getItem "retell_credentials_backup",
   Browser.localStorage (browser w) ≫= Browser.getItem "__emergencyRetellCredentials")
  = (Some "{}", Some "{}").
Proof. vm_compute. reflexivity. Qed.

(** ** The global service initialiser *)

Module InitializerFacts.
Import GlobalServiceInitializer.

Lemma initialize_done (st : State) :
  initialized st = true -> initialize st = (undefined, st).
Proof. intros Hi. unfold initialize. rewrite Hi. reflexivity. Qed.

Lemma initialize_memoised (st : State) (p : nat) :
  initialized st = false -> initPromise st = Some p ->
  initialize st = (promise p, st).
Proof. intros Hi Hp. unfold initialize. rewrite Hi, Hp. reflexivity. Qed.

Lemma single_flight_initial : single_flight initial.
Proof. repeat split. Qed.

Lemma single_flight_step (st : State) (e : Event) :
  is_force e = false -> single_flight st -> single_flight (step st e).
Proof.
  intros Hf [Hruns Hinv]. destruct e as [| |p s]; [|discriminate|].
  - cbn [step].
    destruct (initialized st) eqn:Hi.
    { rewrite initialize_done by assumption. split; [assumption|].
      cbn [snd]. rewrite Hi. assumption. }
    destruct (initPromise st) as [p|] eqn:Hp.
    + rewrite (initialize_memoised st p) by assumption. cbn [snd].
      split; [assumption|]. rewrite Hp, Hi. assumption.
    + destruct Hinv as [Hnil _]. unfold initialize. rewrite Hi, Hp.
      unfold performInitialization, single_flight. cbn.
      rewrite Hruns, Hnil. cbn. rewrite Hi. repeat split. intros; discriminate.
  - cbn [step]. unfold body_completes, body_throws.
    destruct (promises st !! p) as [[| |]|] eqn:Hlook; try (split; assumption).
    destruct (initPromise st) as [q|] eqn:Hq.
    + destruct Hinv as (-> & Hlen & Hfull).
      destruct (promises st) as [|x [|y l]] eqn:Hps; try discriminate.
      destruct p as [|p]; [|discriminate]. cbn in Hlook. injection Hlook as ->.
      destruct (syncWithRetellService_resolves s); [destruct (window_defined s)|];
        cbn; rewrite ?Hq; cbn.
      * split; [assumption|]. repeat split; auto.
        intros Hi. specialize (Hfull Hi). discriminate.
      * repeat split; auto.
      * split; [assumption|]. repeat split; auto.
        intros Hi. specialize (Hfull Hi). discriminate.
    + destruct Hinv as [Hnil _]. rewrite Hnil in Hlook. discriminate.
Qed.

Lemma single_flight_run (events : list Event) (st : State) :
  forallb (fun e => negb (is_force e)) events = true ->
  single_flight st -> single_flight (run events st).
Proof.
  revert st. induction events as [|e events IH]; intros st Hall Hinv; [assumption|].
  cbn in Hall. apply andb_true_iff in Hall as [He Hall].
  cbn [run fold_left]. apply IH; [assumption|].
  apply single_flight_step; [|assumption].
  destruct (is_force e); [discriminate|reflexivity].
Qed.

End InitializerFacts.

(** C8: whatever calls of [initialize] are made, and however they
    interleave with the completion of the body, the body of
    [performInitialization] is entered at most once; a call made while the
    initialisation is in flight returns the memoised promise and starts
    nothing; a call made after it completed returns at once and starts
    nothing. *)
Theorem C8_initialize_single_flight (events : list GlobalServiceInitializer.Event) :
  forallb (fun e => negb (GlobalServiceInitializer.is_force e)) events = true ->
  let st := GlobalServiceInitializer.run events GlobalServiceInitializer.initial in
  GlobalServiceInitializer.body_runs st <= 1
  /\ (forall p,
        GlobalServiceInitializer.initPromise st = Some p ->
        GlobalServiceInitializer.promises st !! p = Some GlobalServiceInitializer.pending ->
        GlobalServiceInitializer.initialize st = (GlobalServiceInitializer.promise p, st))
  /\ (GlobalServiceInitializer.initialized st = true ->
      GlobalServiceInitializer.initialize st = (GlobalServiceInitializer.undefined, st)).
Proof.
  intros Hall st.
  pose proof (InitializerFacts.single_flight_run events _ Hall
                InitializerFacts.single_flight_initial) as [Hruns Hinv].
  fold st in Hruns, Hinv. split; [|split].
  - rewrite Hruns. destruct (GlobalServiceInitializer.initPromise st).
    + destruct Hinv as (_ & -> & _). lia.
    + destruct Hinv as [-> _]. cbn. lia.
  - intros p Hp Hpend.
    rewrite Hp in Hinv. destruct Hinv as (Hp0 & _ & Hfull).
    destruct (GlobalServiceInitializer.initialized st) eqn:Hi.
    + rewrite (Hfull eq_refl) in Hpend. subst p. discriminate.
    + apply InitializerFacts.initialize_memoised; assumption.
  - intros Hi. unfold GlobalServiceInitializer.initialize. rewrite Hi. reflexivity.
Qed.

Lemma C8_witness_three_calls :
  let ok := {| GlobalServiceInitializer.loadCredentialsAsync_resolves := false;
               GlobalServiceInitializer.syncWithRetellService_resolves := true;
               GlobalServiceInitializer.window_defined := false |} in
  let st := GlobalServiceInitializer.run
              [GlobalServiceInitializer.call_initialize;
               GlobalServiceInitializer.call_initialize;
               GlobalServiceInitializer.completion_of 0 ok;
               GlobalServiceInitializer.call_initialize]
              GlobalServiceInitializer.initial in
  GlobalServiceInitializer.body_runs st <= 1
  /\ (forall p,
        GlobalServiceInitializer.initPromise st = Some p ->
        GlobalServiceInitializer.promises st !! p = Some GlobalServiceInitializer.pending ->
        GlobalServiceInitializer.initialize st = (GlobalServiceInitializer.promise p, st))
  /\ (GlobalServiceInitializer.initialized st = true ->
      GlobalServiceInitializer.initialize st = (GlobalServiceInitializer.undefined, st)).
Proof.
  intros ok.
  apply (C8_initialize_single_flight
           [GlobalServiceInitializer.call_initialize;
            GlobalServiceInitializer.call_initialize;
            GlobalServiceInitializer.completion_of 0 ok;
            GlobalServiceInitializer.call_initialize]).
  reflexivity.
Defined.

Example initialize_runs_body_once :
  let ok := {| GlobalServiceInitializer.loadCredentialsAsync_resolves := true;
               GlobalServiceInitializer.syncWithRetellService_resolves := true;
               GlobalServiceInitializer.window_defined := false |} in
  GlobalServiceInitializer.run
    [GlobalServiceInitializer.call_initialize;
     GlobalServiceInitializer.call_initialize;
     GlobalServiceInitializer.completion_of 0 ok;
     GlobalServiceInitializer.call_initialize]
    GlobalServiceInitializer.initial
  = {| GlobalServiceInitializer.initialized := true;
       GlobalServiceInitializer.initPromise := Some 0;
       GlobalServiceInitializer.promises := [GlobalServiceInitializer.fulfilled];
       GlobalServiceInitializer.body_runs := 1 |}.
Proof. reflexivity. Qed.

(** With [forceReinitialize] in the trace the body can run again, even
    while an earlier run is still in flight. *)
Example forceReinitialize_runs_body_again :
  GlobalServiceInitializer.body_runs
    (GlobalServiceInitializer.run
       [GlobalServiceInitializer.call_initialize;
        GlobalServiceInitializer.call_forceReinitialize]
       GlobalServiceInitializer.initial) = 2.
Proof. reflexivity. Qed.



(** ** Retrieval from the profile table *)

Module RetrievalFacts.
Import ApiKeyFallbackService.

Lemma is_success_succeeded {A : Type} (d : option A) :
  is_success (succeeded d) = true.
Proof. reflexivity. Qed.

(** The rows a tenant-scoped [.single()] query looks at are those of the
    current tenant: two tables with the same rows for that tenant answer
    alike, whatever rows other tenants hold. *)
Lemma select_single_tenant_scoped (cols : list string) (u tenant : string)
    (t : Supabase.Table) (rows1 rows2 : list (gmap string JS.json)) :
  List.filter (fun r => Supabase.eq_filter r ("tenant_id", tenant)) rows1
  = List.filter (fun r => Supabase.eq_filter r ("tenant_id", tenant)) rows2 ->
  Supabase.select_single cols [("user_id", u); ("tenant_id", tenant)]
    (Supabase.with_rows rows1 t)
  = Supabase.select_single cols [("user_id", u); ("tenant_id", tenant)]
      (Supabase.with_rows rows2 t).
Proof.
  intros Hsame. unfold Supabase.select_single. cbn [Supabase.schema_cache Supabase.with_rows
    Supabase.rows].
  assert (Hsplit : forall l,
            List.filter (fun r => forallb (Supabase.eq_filter r)
                                    [("user_id", u); ("tenant_id", tenant)]) l
            = List.filter (fun r => Supabase.eq_filter r ("user_id", u))
                (List.filter (fun r => Supabase.eq_filter r ("tenant_id", tenant)) l)).
  { induction l as [|r l IH]; [reflexivity|]. cbn [List.filter].
    rewrite IH. cbn [forallb].
    destruct (Supabase.eq_filter r ("user_id", u)) eqn:Hu;
      destruct (Supabase.eq_filter r ("tenant_id", tenant)) eqn:Ht;
      cbn [andb List.filter]; rewrite ?Hu; reflexivity. }
  rewrite !Hsplit, Hsame. reflexivity.
Qed.

End RetrievalFacts.



(** ** Upserts with a conflict target *)

Module UpsertFacts.
Import Supabase.

Lemma scalar_eqb_eq (a b : JS.json) : JS.scalar_eqb a b = true -> a = b.
Proof.
  destruct a, b; cbn; try discriminate; intros Heq.
  - apply String.eqb_eq in Heq. congruence.
  - apply Z.eqb_eq in Heq. congruence.
Qed.

Lemma scalar_eqb_sym (a b : JS.json) : JS.scalar_eqb a b = JS.scalar_eqb b a.
Proof.
  destruct a, b; cbn; try reflexivity.
  - apply String.eqb_sym.
  - apply Z.eqb_sym.
Qed.

Lemma cols_eqb_refl (cols : list string) : cols_eqb cols cols = true.
Proof.
  induction cols as [|c cols IH]; [reflexivity|].
  cbn. rewrite String.eqb_refl. exact IH.
Qed.

Lemma agree_sym (cols : list string) (r1 r2 : gmap string JS.json) :
  agree cols r1 r2 = agree cols r2 r1.
Proof.
  unfold agree. induction cols as [|c cols IH]; [reflexivity|].
  cbn. rewrite IH. f_equal.
  destruct (r1 !! c), (r2 !! c); try reflexivity. apply scalar_eqb_sym.
Qed.

Lemma agree_ext_l (cols : list string) (r1 r1' r2 : gmap string JS.json) :
  (forall c, In c cols -> r1 !! c = r1' !! c) ->
  agree cols r1 r2 = agree cols r1' r2.
Proof.
  unfold agree. induction cols as [|c cols IH]; intros Hext; [reflexivity|].
  cbn. rewrite (Hext c) by (left; reflexivity).
  rewrite IH; [reflexivity|]. intros c' Hin. apply Hext. right. exact Hin.
Qed.

Lemma agree_ext_r (cols : list string) (r1 r2 r2' : gmap string JS.json) :
  (forall c, In c cols -> r2 !! c = r2' !! c) ->
  agree cols r1 r2 = agree cols r1 r2'.
Proof.
  intros Hext. rewrite (agree_sym cols r1 r2), (agree_sym cols r1 r2').
  apply agree_ext_l. exact Hext.
Qed.

Lemma agree_lookup (cols : list string) (r1 r2 : gmap string JS.json) (c : string) :
  agree cols r1 r2 = true -> In c cols ->
  r1 !! c = r2 !! c /\ is_Some (r1 !! c).
Proof.
  unfold agree. rewrite forallb_forall. intros Hall Hin.
  specialize (Hall c Hin). cbn in Hall.
  destruct (r1 !! c) as [a|], (r2 !! c) as [b|]; try discriminate.
  apply scalar_eqb_eq in Hall. subst b. split; [reflexivity|eauto].
Qed.

(** A row whose column of the constraint is NULL conflicts with none. *)
Lemma agree_null_r (cols : list string) (r x : gmap string JS.json) (c : string) :
  In c cols -> x !! c = None -> agree cols r x = false.
Proof.
  intros Hin Hnull. destruct (agree cols r x) eqn:Ha; [|reflexivity].
  rewrite agree_sym in Ha.
  destruct (agree_lookup _ _ _ _ Ha Hin) as [_ [v Hv]]. congruence.
Qed.

Section RowUpdate.
Variable f : gmap string JS.json -> gmap string JS.json.
Variable cols : list string.
Hypothesis f_keeps : forall x c, In c cols -> f x !! c = x !! c.

Lemma existsb_agree_map (r : gmap string JS.json) (l : list (gmap string JS.json)) :
  existsb (agree cols (f r)) (map f l) = existsb (agree cols r) l.
Proof.
  induction l as [|x l IH]; [reflexivity|]. cbn. rewrite IH. f_equal.
  rewrite (agree_ext_l cols (f r) r) by (intros; apply f_keeps; assumption).
  apply agree_ext_r. intros; apply f_keeps; assumption.
Qed.

Lemma distinct_on_map (l : list (gmap string JS.json)) :
  distinct_on cols (map f l) = distinct_on cols l.
Proof.
  induction l as [|x l IH]; [reflexivity|]. cbn.
  rewrite existsb_agree_map, IH. reflexivity.
Qed.

End RowUpdate.

Lemma distinct_on_snoc (cols : list string) (l : list (gmap string JS.json))
    (x : gmap string JS.json) :
  distinct_on cols (l ++ [x])
  = distinct_on cols l && negb (existsb (fun r => agree cols r x) l).
Proof.
  induction l as [|r l IH]; [reflexivity|].
  cbn. rewrite existsb_app, IH. cbn. rewrite orb_false_r.
  set (a := existsb (agree cols r) l). set (b := agree cols r x).
  set (d := distinct_on cols l). set (e := existsb _ l).
  destruct a, b, d, e; reflexivity.
Qed.

Section Keyed.
Variable target : list string.
Variable new : gmap string JS.json.
Variable t : Table.
Hypothesis new_without_id : new !! "id" = None.
Hypothesis new_has_target : agree target new new = true.

Local Abbreviation update := (Supabase.update target new).

Lemma update_keeps_id (x : gmap string JS.json) (c : string) :
  In c ["id"] -> update x !! c = x !! c.
Proof.
  intros [<-|[]]. unfold update. destruct (agree target new x); [|reflexivity].
  apply lookup_union_r. exact new_without_id.
Qed.

Lemma update_keeps_target (x : gmap string JS.json) (c : string) :
  In c target -> update x !! c = x !! c.
Proof.
  intros Hin. unfold update. destruct (agree target new x) eqn:Ha; [|reflexivity].
  destruct (agree_lookup _ _ _ _ Ha Hin) as [Heq Hsome].
  rewrite lookup_union_l' by exact Hsome. exact Heq.
Qed.

Lemma inserted_agrees (r : gmap string JS.json) :
  agree target r (new ∪ defaults t) = agree target r new.
Proof.
  apply agree_ext_r. intros c Hin.
  destruct (agree_lookup _ _ _ _ new_has_target Hin) as [_ Hsome].
  apply lookup_union_l'. exact Hsome.
Qed.

Lemma candidate_consistent :
  keyed_by target t -> consistent target t ->
  distinct_on ["id"] (candidate target new t) = true
  /\ distinct_on target (candidate target new t) = true.
Proof.
  intros [_ Hdef] [Hid Htarget]. unfold candidate.
  destruct (existsb (agree target new) (rows t)) eqn:Hex.
  - fold update. split.
    + rewrite (distinct_on_map update ["id"] update_keeps_id). exact Hid.
    + rewrite (distinct_on_map update target update_keeps_target). exact Htarget.
  - rewrite !distinct_on_snoc, Hid, Htarget. cbn [andb]. split.
    + apply negb_true_iff. apply not_true_is_false. intros Hsome.
      apply existsb_exists in Hsome as (r & _ & Hr).
      rewrite (agree_null_r ["id"] r (new ∪ defaults t) "id") in Hr;
        [discriminate|left; reflexivity|].
      rewrite lookup_union_r by exact new_without_id. exact Hdef.
    + apply negb_true_iff. apply not_true_is_false. intros Hsome.
      apply existsb_exists in Hsome as (r & Hin & Hr).
      rewrite inserted_agrees, agree_sym in Hr.
      assert (existsb (agree target new) (rows t) = true)
        by (apply existsb_exists; eauto).
      congruence.
Qed.

(** The target row is there after the upsert. *)
Lemma candidate_has_target :
  existsb (agree target new) (candidate target new t) = true.
Proof.
  unfold candidate. destruct (existsb (agree target new) (rows t)) eqn:Hex.
  - fold update. apply existsb_exists in Hex as (r & Hin & Hr).
    apply existsb_exists. exists (update r). split; [apply in_map; exact Hin|].
    rewrite (agree_ext_r target new (update r) r); [exact Hr|].
    intros c Hc. apply update_keeps_target. exact Hc.
  - rewrite existsb_app. cbn [existsb].
    rewrite inserted_agrees, new_has_target. rewrite orb_true_r. reflexivity.
Qed.

End Keyed.

(** On a table keyed by the conflict target an upsert fails only on a
    column the schema cache does not know; otherwise it yields the
    candidate rows. *)
Lemma upsert_keyed (values : list (string * JS.json)) (target : list string)
    (t : Table) :
  keyed_by target t -> consistent target t ->
  (list_to_map values : gmap string JS.json) !! "id" = None ->
  agree target (list_to_map values) (list_to_map values) = true ->
  upsert values (Some target) t
  = match find (fun c => negb (mem c (schema_cache t))) (map fst values) with
    | Some c => inl (SchemaCacheMiss c)
    | None => inr (with_rows (candidate target (list_to_map values) t) t)
    end.
Proof.
  intros Hkeyed Hcons Hid Htarget. unfold upsert.
  destruct (find _ (map fst values)); [reflexivity|].
  change (default (primary_key t) (Some target)) with target.
  destruct (candidate_consistent target _ t Hid Htarget Hkeyed Hcons) as [Hc1 Hc2].
  unfold candidate in Hc1, Hc2 |- *.
  destruct Hkeyed as [Hu _]. unfold first_violation. rewrite Hu.
  cbn [existsb find]. rewrite cols_eqb_refl, orb_true_r. cbn [negb].
  rewrite Hc1, Hc2. reflexivity.
Qed.

Lemma keyed_with_rows (target : list string) (l : list (gmap string JS.json))
    (t : Table) :
  keyed_by target t -> keyed_by target (with_rows l t).
Proof. intros H. exact H. Qed.

Lemma agree_user_id (new r : gmap string JS.json) (u : string) :
  new !! "user_id" = Some (JS.JStr u) ->
  agree ["user_id"] new r = eq_filter r ("user_id", u).
Proof.
  intros Hu. unfold agree, eq_filter. cbn. rewrite Hu, andb_true_r.
  destruct (r !! "user_id") as [[]|]; try reflexivity. cbn. apply String.eqb_sym.
Qed.

Lemma rows_of_user_none (u : string) (a : gmap string JS.json)
    (l : list (gmap string JS.json)) :
  eq_filter a ("user_id", u) = true ->
  existsb (agree ["user_id"] a) l = false ->
  rows_of_user u l = 0.
Proof.
  intros Ha. unfold rows_of_user. induction l as [|r l IH]; [reflexivity|].
  cbn [existsb List.filter]. intros Hnone.
  apply orb_false_iff in Hnone as [Hr Hl].
  assert (Hau : a !! "user_id" = Some (JS.JStr u)).
  { unfold eq_filter in Ha. cbn in Ha.
    destruct (a !! "user_id") as [[]|]; try discriminate.
    apply String.eqb_eq in Ha. congruence. }
  rewrite (agree_user_id a r u Hau) in Hr. rewrite Hr. apply IH. exact Hl.
Qed.

Lemma rows_of_user_at_most_one (u : string) (l : list (gmap string JS.json)) :
  distinct_on ["user_id"] l = true -> rows_of_user u l <= 1.
Proof.
  induction l as [|r l IH]; [cbn; lia|].
  cbn [distinct_on]. intros Hd. apply andb_true_iff in Hd as [Hr Hl].
  apply negb_true_iff in Hr.
  unfold rows_of_user in *. cbn [List.filter].
  destruct (eq_filter r ("user_id", u)) eqn:Hru.
  - cbn [length]. pose proof (rows_of_user_none u r l Hru Hr) as Hzero.
    unfold rows_of_user in Hzero. rewrite Hzero. lia.
  - apply IH. exact Hl.
Qed.

Lemma rows_of_user_at_least_one (u : string) (l : list (gmap string JS.json)) :
  existsb (fun r => eq_filter r ("user_id", u)) l = true -> 1 <= rows_of_user u l.
Proof.
  unfold rows_of_user. induction l as [|r l IH]; [discriminate|].
  cbn [existsb List.filter]. destruct (eq_filter r ("user_id", u)); cbn; [lia|].
  exact IH.
Qed.

Lemma existsb_agree_user_id (new : gmap string JS.json) (u : string)
    (l : list (gmap string JS.json)) :
  new !! "user_id" = Some (JS.JStr u) ->
  existsb (agree ["user_id"] new) l = existsb (fun r => eq_filter r ("user_id", u)) l.
Proof.
  intros Hu. induction l as [|r l IH]; [reflexivity|].
  cbn [existsb]. rewrite IH, (agree_user_id new r u Hu). reflexivity.
Qed.

(** A row without primary key matches no row on it. *)
Lemma no_match_without_id (new : gmap string JS.json) (l : list (gmap string JS.json)) :
  new !! "id" = None -> existsb (agree ["id"] new) l = false.
Proof.
  intros Hid. induction l as [|r l IH]; [reflexivity|].
  cbn [existsb]. rewrite IH, orb_false_r. unfold agree. cbn. rewrite Hid. reflexivity.
Qed.

End UpsertFacts.

(** ** Tables keyed by user and tenant *)

Module CompositeKeyFacts.
Import Supabase UpsertFacts.

Section Pair.
Variables (u tenant : string) (new : gmap string JS.json).
Hypothesis new_user : new !! "user_id" = Some (JS.JStr u).
Hypothesis new_tenant : new !! "tenant_id" = Some (JS.JStr tenant).

Local Abbreviation target := ["user_id"; "tenant_id"].
Local Abbreviation mine :=
  (fun r : gmap string JS.json =>
     eq_filter r ("user_id", u) && eq_filter r ("tenant_id", tenant)).

Lemma agree_pair (r : gmap string JS.json) : agree target new r = mine r.
Proof.
  unfold agree, eq_filter. cbn. rewrite new_user, new_tenant, andb_true_r.
  destruct (r !! "user_id") as [[]|], (r !! "tenant_id") as [[]|]; cbn;
    rewrite ?andb_false_r; try reflexivity.
  rewrite (String.eqb_sym u), (String.eqb_sym tenant). reflexivity.
Qed.

Lemma new_has_pair : agree target new new = true.
Proof.
  rewrite agree_pair. unfold eq_filter. cbn. rewrite new_user, new_tenant.
  rewrite !String.eqb_refl. reflexivity.
Qed.

Lemma mine_union (x : gmap string JS.json) : mine (new ∪ x) = true.
Proof.
  unfold eq_filter. cbn.
  rewrite !lookup_union_l' by (rewrite ?new_user, ?new_tenant; eauto).
  rewrite new_user, new_tenant, !String.eqb_refl. reflexivity.
Qed.

(** The rows of other users and other tenants pass through the conflict
    resolution as they are. *)
Lemma candidate_others (t : Table) :
  Rpc.rows_of_others u tenant (candidate target new t)
  = Rpc.rows_of_others u tenant (rows t).
Proof.
  unfold Rpc.rows_of_others, candidate.
  destruct (existsb (agree target new) (rows t)).
  - induction (rows t) as [|r l IH]; [reflexivity|].
    cbn [map List.filter]. rewrite IH.
    assert (Hupd : update target new r = if mine r then new ∪ r else r)
      by (unfold update; rewrite agree_pair; reflexivity).
    rewrite Hupd. destruct (mine r) eqn:Hr.
    + rewrite mine_union. reflexivity.
    + rewrite Hr. reflexivity.
  - rewrite List.filter_app. cbn [List.filter]. rewrite mine_union.
    cbn [negb]. apply app_nil_r.
Qed.

(** A row of the outcome that carries the pair holds every supplied
    value. *)
Lemma candidate_mine_holds (t : Table) (row : gmap string JS.json) (c : string)
    (v : JS.json) :
  In row (candidate target new t) -> mine row = true ->
  new !! c = Some v -> row !! c = Some v.
Proof.
  unfold candidate. destruct (existsb (agree target new) (rows t)) eqn:Hex.
  - intros Hin Hrow Hc. apply in_map_iff in Hin as (r & <- & _).
    unfold update in *. destruct (agree target new r) eqn:Hr.
    + rewrite lookup_union_l' by (rewrite Hc; eauto). exact Hc.
    + rewrite agree_pair in Hr. congruence.
  - intros Hin Hrow Hc. apply in_app_iff in Hin as [Hin|[<-|[]]].
    + assert (existsb (agree target new) (rows t) = true).
      { apply existsb_exists. exists row. split; [exact Hin|].
        rewrite agree_pair. exact Hrow. }
      congruence.
    + rewrite lookup_union_l' by (rewrite Hc; eauto). exact Hc.
Qed.

Lemma rows_of_none (a : gmap string JS.json) (l : list (gmap string JS.json)) :
  mine a = true -> existsb (agree target a) l = false ->
  Rpc.rows_of u tenant l = [].
Proof.
  intros Ha. unfold Rpc.rows_of. induction l as [|r l IH]; [reflexivity|].
  cbn [existsb List.filter]. intros Hnone.
  apply orb_false_iff in Hnone as [Hr Hl].
  assert (Hmine : mine r = false).
  { destruct (mine r) eqn:Hm; [|reflexivity].
    assert (Ha' : agree target new a = true) by (rewrite agree_pair; exact Ha).
    assert (Hm' : agree target new r = true) by (rewrite agree_pair; exact Hm).
    assert (Har : agree target a r = true).
    { clear Ha Hm Hr IH. rename Ha' into Ha, Hm' into Hm.
      unfold agree in *. rewrite forallb_forall in *. intros c Hc.
      specialize (Ha c Hc). specialize (Hm c Hc). cbn in Ha, Hm |- *.
      destruct (new !! c) as [n|]; [|discriminate].
      destruct (a !! c) as [x|]; [|discriminate].
      destruct (r !! c) as [y|]; [|discriminate].
      pose proof (scalar_eqb_eq _ _ Ha) as Hx.
      pose proof (scalar_eqb_eq _ _ Hm) as Hy. subst x y. exact Ha. }
    congruence. }
  rewrite Hmine. apply IH. exact Hl.
Qed.

Lemma rows_of_at_most_one (l : list (gmap string JS.json)) :
  distinct_on target l = true -> length (Rpc.rows_of u tenant l) <= 1.
Proof.
  induction l as [|r l IH]; [cbn; lia|].
  cbn [distinct_on]. intros Hd. apply andb_true_iff in Hd as [Hr Hl].
  apply negb_true_iff in Hr. unfold Rpc.rows_of in *. cbn [List.filter].
  destruct (mine r) eqn:Hm.
  - pose proof (rows_of_none r l Hm Hr) as Hzero. unfold Rpc.rows_of in Hzero.
    rewrite Hzero. cbn. lia.
  - apply IH. exact Hl.
Qed.

Lemma rows_of_at_least_one (l : list (gmap string JS.json)) :
  existsb (agree target new) l = true -> 1 <= length (Rpc.rows_of u tenant l).
Proof.
  unfold Rpc.rows_of. induction l as [|r l IH]; [discriminate|].
  cbn [existsb List.filter]. rewrite agree_pair.
  destruct (mine r); cbn; [lia|]. exact IH.
Qed.

End Pair.

End CompositeKeyFacts.

(** ** The profile upsert of the save path *)

Module ProfileStoreFacts.
Import Supabase ApiKeyFallbackService UpsertFacts.

Section WithExternals.
Context `{Externals}.
Variables (userId : string) (apiKeys : ApiKeys) (encryptedKeys : EncryptedKeys).

Lemma values_without_id (w : World) :
  (list_to_map (user_profiles_values userId apiKeys encryptedKeys w)
     : gmap string JS.json) !! "id" = None.
Proof.
  unfold user_profiles_values.
  destruct (retell_api_key encryptedKeys); cbn;
    rewrite !lookup_insert_ne by discriminate; apply lookup_empty.
Qed.

Lemma values_user_id (w : World) :
  (list_to_map (user_profiles_values userId apiKeys encryptedKeys w)
     : gmap string JS.json) !! "user_id" = Some (JS.JStr userId).
Proof.
  unfold user_profiles_values. cbn. apply lookup_insert_eq.
Qed.

Lemma values_columns (w w' : World) :
  map fst (user_profiles_values userId apiKeys encryptedKeys w)
  = map fst (user_profiles_values userId apiKeys encryptedKeys w').
Proof.
  unfold user_profiles_values. destruct (retell_api_key encryptedKeys); reflexivity.
Qed.

Lemma values_target (w : World) :
  agree ["user_id"] (list_to_map (user_profiles_values userId apiKeys encryptedKeys w))
    (list_to_map (user_profiles_values userId apiKeys encryptedKeys w)) = true.
Proof.
  rewrite (agree_user_id _ _ userId (values_user_id w)).
  unfold eq_filter. cbn [fst snd]. rewrite values_user_id. apply String.eqb_refl.
Qed.

(** What [storeInUserProfiles] does on a profile table keyed by the user
    id: it fails when the database is unreachable or a written column is
    unknown to the schema cache, and otherwise leaves the candidate rows. *)
Lemma storeInUserProfiles_keyed (w : World) :
  keyed_by ["user_id"] (user_profiles (cloud w)) ->
  consistent ["user_id"] (user_profiles (cloud w)) ->
  storeInUserProfiles userId apiKeys encryptedKeys w
  = if online (cloud w) then
      match find (fun c => negb (mem c (schema_cache (user_profiles (cloud w)))))
              (map fst (user_profiles_values userId apiKeys encryptedKeys w)) with
      | Some c => (failed (PostgrestFailure (SchemaCacheMiss c)), w)
      | None =>
          (succeeded None,
           with_cloud
             (with_user_profiles
                (with_rows
                   (candidate ["user_id"]
                      (list_to_map (user_profiles_values userId apiKeys encryptedKeys w))
                      (user_profiles (cloud w)))
                   (user_profiles (cloud w)))
                (cloud w)) w)
      end
    else (failed (PostgrestFailure FetchFailed), w).
Proof.
  intros Hkeyed Hcons.
  unfold storeInUserProfiles, upsert_user_profiles, request.
  destruct (online (cloud w)); [|reflexivity].
  rewrite (upsert_keyed _ _ _ Hkeyed Hcons (values_without_id w) (values_target w)).
  destruct (find _ _); reflexivity.
Qed.

End WithExternals.

End ProfileStoreFacts.

(** X23: on the profile table, whose one unique constraint besides the
    primary key is on the user id, saving the same credentials for user U
    twice in succession through [storeInUserProfiles] with its conflict
    clause never fails with a uniqueness violation, neither the first time
    nor the second; and when the first save is accepted so is the second,
    and the table then holds exactly one row for U. *)
Theorem X23_profile_upsert_idempotent `{Externals} (U : string)
    (c : ApiKeyFallbackService.ApiKeys) (ek : ApiKeyFallbackService.EncryptedKeys)
    (w : World) (later : Z) :
  Supabase.keyed_by ["user_id"] (Supabase.user_profiles (cloud w)) ->
  Supabase.consistent ["user_id"] (Supabase.user_profiles (cloud w)) ->
  let first := ApiKeyFallbackService.storeInUserProfiles U c ek w in
  let second := ApiKeyFallbackService.storeInUserProfiles U c ek (at_time later first.2) in
  (forall cols, ApiKeyFallbackService.error_of first.1
                <> Some (PostgrestFailure (Supabase.UniqueViolation cols)))
  /\ (forall cols, ApiKeyFallbackService.error_of second.1
                   <> Some (PostgrestFailure (Supabase.UniqueViolation cols)))
  /\ (ApiKeyFallbackService.is_success first.1 = true ->
      ApiKeyFallbackService.is_success second.1 = true
      /\ Supabase.rows_of_user U
           (Supabase.rows (Supabase.user_profiles (cloud second.2))) = 1).
Proof.
  intros Hkeyed Hcons first second.
  pose proof (ProfileStoreFacts.storeInUserProfiles_keyed U c ek w Hkeyed Hcons) as Hfirst.
  fold first in Hfirst.
  assert (Hkeyed1 : Supabase.keyed_by ["user_id"]
                      (Supabase.user_profiles (cloud (at_time later first.2)))
                    /\ Supabase.consistent ["user_id"]
                         (Supabase.user_profiles (cloud (at_time later first.2)))).
  { rewrite Hfirst. destruct (Supabase.online (cloud w)); [|split; assumption].
    destruct (find _ _); [split; assumption|].
    split; [exact Hkeyed|].
    apply (UpsertFacts.candidate_consistent ["user_id"] _ _
             (ProfileStoreFacts.values_without_id U c ek w)
             (ProfileStoreFacts.values_target U c ek w) Hkeyed Hcons). }
  destruct Hkeyed1 as [Hkeyed1 Hcons1].
  pose proof (ProfileStoreFacts.storeInUserProfiles_keyed U c ek
                (at_time later first.2) Hkeyed1 Hcons1) as Hsecond.
  fold second in Hsecond.
  split; [|split].
  - intros cols. rewrite Hfirst.
    destruct (Supabase.online (cloud w)); [|cbn; discriminate].
    destruct (find _ _); cbn; discriminate.
  - intros cols. rewrite Hsecond.
    destruct (Supabase.online (cloud (at_time later first.2))); [|cbn; discriminate].
    match goal with
    | |- context [match find ?f ?l with _ => _ end] => destruct (find f l)
    end; cbn; discriminate.
  - intros Hok. rewrite Hsecond. revert Hok. rewrite Hfirst.
    destruct (Supabase.online (cloud w)) eqn:Hon; [|discriminate].
    destruct (find _ (map fst (ApiKeyFallbackService.user_profiles_values U c ek w)))
      eqn:Hfind; [discriminate|].
    intros _. cbn [snd at_time with_browser with_cloud cloud Supabase.online
                   Supabase.with_user_profiles Supabase.user_profiles
                   Supabase.with_rows Supabase.schema_cache Supabase.rows].
    rewrite Hon.
    rewrite (ProfileStoreFacts.values_columns U c ek _ w), Hfind.
    cbn [fst snd cloud with_cloud Supabase.with_user_profiles Supabase.user_profiles
         Supabase.with_rows Supabase.rows].
    split; [reflexivity|].
    set (w1 := at_time later _).
    set (t1 := Supabase.with_rows _ (Supabase.user_profiles (cloud w))).
    assert (Hk1 : Supabase.keyed_by ["user_id"] t1) by exact Hkeyed.
    assert (Hc1 : Supabase.consistent ["user_id"] t1).
    { apply (UpsertFacts.candidate_consistent ["user_id"] _ _
               (ProfileStoreFacts.values_without_id U c ek w)
               (ProfileStoreFacts.values_target U c ek w) Hkeyed Hcons). }
    apply Nat.le_antisymm.
    + apply UpsertFacts.rows_of_user_at_most_one.
      apply (UpsertFacts.candidate_consistent ["user_id"] _ t1
               (ProfileStoreFacts.values_without_id U c ek w1)
               (ProfileStoreFacts.values_target U c ek w1) Hk1 Hc1).
    + apply UpsertFacts.rows_of_user_at_least_one.
      rewrite <- (UpsertFacts.existsb_agree_user_id _ U _
                    (ProfileStoreFacts.values_user_id U c ek w1)).
      apply UpsertFacts.candidate_has_target.
      apply ProfileStoreFacts.values_target.
Qed.

Lemma X23_witness_save_twice :
  let w := Sample.world [] true [] in
  let first := @ApiKeyFallbackService.storeInUserProfiles Sample.collaborators
                 Sample.user_U Sample.keys_abc Sample.encrypted_abc w in
  let second := @ApiKeyFallbackService.storeInUserProfiles Sample.collaborators
                  Sample.user_U Sample.keys_abc Sample.encrypted_abc
                  (at_time 1761652860000 first.2) in
  (forall cols, ApiKeyFallbackService.error_of first.1
                <> Some (PostgrestFailure (Supabase.UniqueViolation cols)))
  /\ (forall cols, ApiKeyFallbackService.error_of second.1
                   <> Some (PostgrestFailure (Supabase.UniqueViolation cols)))
  /\ (ApiKeyFallbackService.is_success first.1 = true ->
      ApiKeyFallbackService.is_success second.1 = true
      /\ Supabase.rows_of_user Sample.user_U
           (Supabase.rows (Supabase.user_profiles (cloud second.2))) = 1).
Proof.
  apply (@X23_profile_upsert_idempotent Sample.collaborators Sample.user_U
           Sample.keys_abc Sample.encrypted_abc (Sample.world [] true [])
           1761652860000).
  - split; [reflexivity | vm_compute; reflexivity].
  - split; reflexivity.
Defined.

(** Both saves of the sample are accepted. *)
Example save_twice_accepted :
  let w := Sample.world [] true [] in
  let first := @ApiKeyFallbackService.storeInUserProfiles Sample.collaborators
                 Sample.user_U Sample.keys_abc Sample.encrypted_abc w in
  let second := @ApiKeyFallbackService.storeInUserProfiles Sample.collaborators
                  Sample.user_U Sample.keys_abc Sample.encrypted_abc first.2 in
  (ApiKeyFallbackService.status first.1, ApiKeyFallbackService.status second.1,
   length (Supabase.rows (Supabase.user_profiles (cloud second.2))))
  = (ApiKeyFallbackService.success, ApiKeyFallbackService.success, 1).
Proof. vm_compute. reflexivity. Qed.

(** The upsert as it was before the conflict clause was added: the second
    save collides with the row the first one inserted, the failure the
    persistence notes report. *)
Example save_twice_before_fix_conflicts :
  let w := Sample.world [] true [] in
  let first := @ApiKeyFallbackService.storeInUserProfiles_before_fix Sample.collaborators
                 Sample.user_U Sample.keys_abc Sample.encrypted_abc w in
  let second := @ApiKeyFallbackService.storeInUserProfiles_before_fix Sample.collaborators
                  Sample.user_U Sample.keys_abc Sample.encrypted_abc first.2 in
  ApiKeyFallbackService.status first.1 = ApiKeyFallbackService.success
  /\ ApiKeyFallbackService.error_of second.1
     = Some (PostgrestFailure (Supabase.UniqueViolation ["user_id"])).
Proof. split; vm_compute; reflexivity. Qed.

(** ** The settings upserts of the save path *)

Module SettingsStoreFacts.
Import Supabase ApiKeyFallbackService UpsertFacts CompositeKeyFacts.

Section Insert.
Variables (u tenant : string) (values : list (string * JS.json)) (t : Table).
Hypothesis values_without_id : (list_to_map values : gmap string JS.json) !! "id" = None.
Hypothesis values_user :
  (list_to_map values : gmap string JS.json) !! "user_id" = Some (JS.JStr u).
Hypothesis values_tenant :
  (list_to_map values : gmap string JS.json) !! "tenant_id" = Some (JS.JStr tenant).
Hypothesis columns_known :
  find (fun c => negb (mem c (schema_cache t))) (map fst values) = None.
Hypothesis key_is_id : primary_key t = ["id"].
Hypothesis keyed : keyed_by ["user_id"; "tenant_id"] t.
Hypothesis id_distinct : distinct_on ["id"] (rows t) = true.

Local Abbreviation inserted := (list_to_map values ∪ defaults t : gmap string JS.json).

Lemma inserted_user : inserted !! "user_id" = Some (JS.JStr u).
Proof. rewrite lookup_union_l' by (rewrite values_user; eauto). exact values_user. Qed.

Lemma inserted_tenant : inserted !! "tenant_id" = Some (JS.JStr tenant).
Proof. rewrite lookup_union_l' by (rewrite values_tenant; eauto). exact values_tenant. Qed.

Lemma id_still_distinct : distinct_on ["id"] (rows t ++ [inserted]) = true.
Proof.
  rewrite distinct_on_snoc, id_distinct. cbn [andb].
  apply negb_true_iff, not_true_is_false. intros Hex.
  apply existsb_exists in Hex as (r & _ & Hr).
  rewrite (agree_null_r ["id"] r inserted "id") in Hr; [discriminate|left; reflexivity|].
  rewrite lookup_union_r by exact values_without_id. apply keyed.
Qed.

(** Without conflict clause the client resolves conflicts on the primary
    key, which the written row does not hold: the statement is an insert,
    refused as soon as a row of the user under the tenant exists. *)
Lemma upsert_is_insert :
  upsert values None t
  = if distinct_on ["user_id"; "tenant_id"] (rows t ++ [inserted])
    then inr (with_rows (rows t ++ [inserted]) t)
    else inl (UniqueViolation ["user_id"; "tenant_id"]).
Proof.
  unfold upsert. rewrite columns_known. cbn [default]. unfold from_option.
  rewrite key_is_id. destruct keyed as [Hunique _]. rewrite Hunique.
  cbn [existsb cols_eqb String.eqb Ascii.eqb Bool.eqb andb orb negb].
  unfold candidate. rewrite (no_match_without_id _ _ values_without_id).
  unfold first_violation. rewrite Hunique. cbn [find].
  rewrite id_still_distinct. cbn [negb].
  destruct (distinct_on ["user_id"; "tenant_id"] _); reflexivity.
Qed.

Lemma no_row_of_pair (l : list (gmap string JS.json)) :
  negb (existsb (fun r => agree ["user_id"; "tenant_id"] r inserted) l)
  = match Rpc.rows_of u tenant l with [] => true | _ => false end.
Proof.
  unfold Rpc.rows_of. induction l as [|r l IH]; [reflexivity|].
  cbn [existsb List.filter].
  rewrite (agree_sym _ r inserted), (agree_pair u tenant inserted inserted_user inserted_tenant).
  destruct (eq_filter r ("user_id", u) && eq_filter r ("tenant_id", tenant));
    [reflexivity|exact IH].
Qed.

Lemma pair_distinct_iff :
  distinct_on ["user_id"; "tenant_id"] (rows t) = true ->
  distinct_on ["user_id"; "tenant_id"] (rows t ++ [inserted])
  = match Rpc.rows_of u tenant (rows t) with [] => true | _ => false end.
Proof.
  intros Hd. rewrite distinct_on_snoc, Hd. cbn [andb]. apply no_row_of_pair.
Qed.

End Insert.

End SettingsStoreFacts.

(** C3 (the code on the settings tier): the two upserts into
    [user_settings] carry no conflict clause, so the client resolves
    conflicts on the primary key only, which the written row does not hold.
    On a settings table with the unique constraint on user and tenant that
    holds no row of user U under the current tenant, a save through either
    method is accepted and leaves one row; the same save made again fails
    with a violation of that constraint and writes nothing. *)
Theorem C3_settings_upsert_conflicts_on_second_save `{Externals} (U : string)
    (c : ApiKeyFallbackService.ApiKeys) (ek : ApiKeyFallbackService.EncryptedKeys)
    (w : World) (later : Z) :
  Supabase.online (cloud w) = true ->
  Supabase.primary_key (Supabase.user_settings (cloud w)) = ["id"] ->
  Supabase.keyed_by ["user_id"; "tenant_id"] (Supabase.user_settings (cloud w)) ->
  Supabase.consistent ["user_id"; "tenant_id"] (Supabase.user_settings (cloud w)) ->
  (forall col, In col ["user_id"; "tenant_id"; "retell_agent_config";
                       "encrypted_retell_keys"; "retell_config"; "encrypted_api_keys";
                       "api_key_updated_at"; "updated_at"] ->
               Supabase.mem col
                 (Supabase.schema_cache (Supabase.user_settings (cloud w))) = true) ->
  Rpc.rows_of U getCurrentTenantId
    (Supabase.rows (Supabase.user_settings (cloud w))) = [] ->
  Forall (fun store : string -> ApiKeyFallbackService.ApiKeys ->
                      ApiKeyFallbackService.EncryptedKeys -> World ->
                      ApiKeyFallbackService.Result unit * World =>
            let first := store U c ek w in
            let second := store U c ek (at_time later first.2) in
            ApiKeyFallbackService.is_success first.1 = true
            /\ length (Rpc.rows_of U getCurrentTenantId
                         (Supabase.rows (Supabase.user_settings (cloud first.2)))) = 1
            /\ second
               = (ApiKeyFallbackService.failed
                    (PostgrestFailure
                       (Supabase.UniqueViolation ["user_id"; "tenant_id"])),
                  at_time later first.2))
    [ApiKeyFallbackService.storePartialInUserProfiles;
     ApiKeyFallbackService.storeInUserSettings].
Proof.
  intros Hon Hpk Hkeyed [Hid Hpair] Hknown Hnone.
  assert (Hgen : forall values1 values2 : list (string * JS.json),
            (list_to_map values1 : gmap string JS.json) !! "id" = None ->
            (list_to_map values1 : gmap string JS.json) !! "user_id" = Some (JS.JStr U) ->
            (list_to_map values1 : gmap string JS.json) !! "tenant_id"
            = Some (JS.JStr getCurrentTenantId) ->
            (list_to_map values2 : gmap string JS.json) !! "id" = None ->
            (list_to_map values2 : gmap string JS.json) !! "user_id" = Some (JS.JStr U) ->
            (list_to_map values2 : gmap string JS.json) !! "tenant_id"
            = Some (JS.JStr getCurrentTenantId) ->
            find (fun c => negb (Supabase.mem c
                                   (Supabase.schema_cache
                                      (Supabase.user_settings (cloud w)))))
              (map fst values1) = None ->
            find (fun c => negb (Supabase.mem c
                                   (Supabase.schema_cache
                                      (Supabase.user_settings (cloud w)))))
              (map fst values2) = None ->
            let first := ApiKeyFallbackService.upsert_user_settings values1 None w in
            let second := ApiKeyFallbackService.upsert_user_settings values2 None
                            (at_time later first.2) in
            ApiKeyFallbackService.is_success first.1 = true
            /\ length (Rpc.rows_of U getCurrentTenantId
                         (Supabase.rows (Supabase.user_settings (cloud first.2)))) = 1
            /\ second
               = (ApiKeyFallbackService.failed
                    (PostgrestFailure
                       (Supabase.UniqueViolation ["user_id"; "tenant_id"])),
                  at_time later first.2)).
  { intros values1 values2 Hid1 Hu1 Ht1 Hid2 Hu2 Ht2 Hc1 Hc2 first second.
    set (t := Supabase.user_settings (cloud w)) in *.
    set (x1 := list_to_map values1 ∪ Supabase.defaults t : gmap string JS.json).
    assert (Hfirst : first
                     = (ApiKeyFallbackService.succeeded None,
                        with_cloud
                          (Supabase.with_user_settings
                             (Supabase.with_rows (Supabase.rows t ++ [x1]) t) (cloud w)) w)).
    { unfold first, ApiKeyFallbackService.upsert_user_settings, Supabase.request.
      rewrite Hon. fold t.
      rewrite (SettingsStoreFacts.upsert_is_insert values1 t Hid1 Hc1 Hpk Hkeyed Hid).
      rewrite (SettingsStoreFacts.pair_distinct_iff U getCurrentTenantId values1 t
                 Hu1 Ht1 Hpair).
      rewrite Hnone. reflexivity. }
    assert (Hrows1 : Rpc.rows_of U getCurrentTenantId (Supabase.rows t ++ [x1]) = [x1]).
    { unfold Rpc.rows_of in *. rewrite List.filter_app, Hnone. cbn [List.filter app].
      pose proof (CompositeKeyFacts.mine_union U getCurrentTenantId (list_to_map values1)
                    Hu1 Ht1 (Supabase.defaults t)) as Hmine.
      cbv beta in Hmine. fold x1 in Hmine. rewrite Hmine. reflexivity. }
    split; [rewrite Hfirst; reflexivity|].
    split.
    { rewrite Hfirst.
      cbn [snd cloud with_cloud Supabase.with_user_settings Supabase.user_settings
           Supabase.rows Supabase.with_rows].
      rewrite Hrows1. reflexivity. }
    unfold second. rewrite Hfirst. cbn [snd].
    set (t1 := Supabase.with_rows (Supabase.rows t ++ [x1]) t).
    unfold ApiKeyFallbackService.upsert_user_settings, Supabase.request.
    cbn [at_time with_browser with_cloud cloud Supabase.online
         Supabase.with_user_settings Supabase.user_settings].
    rewrite Hon.
    rewrite (SettingsStoreFacts.upsert_is_insert values2 t1 Hid2 Hc2 Hpk Hkeyed
               (SettingsStoreFacts.id_still_distinct values1 t Hid1 Hkeyed Hid)).
    rewrite (SettingsStoreFacts.pair_distinct_iff U getCurrentTenantId values2 t1
               Hu2 Ht2).
    - cbn [Supabase.rows Supabase.with_rows t1]. rewrite Hrows1. reflexivity.
    - cbn [Supabase.rows Supabase.with_rows t1]. unfold x1.
      rewrite (SettingsStoreFacts.pair_distinct_iff U getCurrentTenantId values1 t
                 Hu1 Ht1 Hpair).
      rewrite Hnone. reflexivity. }
  cbv zeta in Hgen.
  constructor; [|constructor; [|constructor]]; cbv beta zeta;
    unfold ApiKeyFallbackService.storePartialInUserProfiles,
      ApiKeyFallbackService.storeInUserSettings;
    apply Hgen; try reflexivity;
    cbn [map fst find]; repeat (rewrite Hknown by (cbn; tauto); cbn [negb]);
    reflexivity.
Qed.

Lemma C3_witness_settings_twice :
  let fresh := {| Supabase.rows := [];
                  Supabase.primary_key := ["id"];
                  Supabase.unique := [["id"]; ["user_id"; "tenant_id"]];
                  Supabase.defaults := ∅;
                  Supabase.schema_cache :=
                    ("api_key_updated_at" :: Sample.settings_columns) |} in
  let w := {| browser := Sample.a_browser [];
              cloud := Supabase.with_user_settings fresh (Sample.database true []) |} in
  Forall (fun store : string -> ApiKeyFallbackService.ApiKeys ->
                      ApiKeyFallbackService.EncryptedKeys -> World ->
                      ApiKeyFallbackService.Result unit * World =>
            let first := store Sample.user_U Sample.keys_abc Sample.encrypted_abc w in
            let second := store Sample.user_U Sample.keys_abc Sample.encrypted_abc
                            (at_time 1761652860000 first.2) in
            ApiKeyFallbackService.is_success first.1 = true
            /\ length (Rpc.rows_of Sample.user_U getCurrentTenantId
                         (Supabase.rows (Supabase.user_settings (cloud first.2)))) = 1
            /\ second
               = (ApiKeyFallbackService.failed
                    (PostgrestFailure
                       (Supabase.UniqueViolation ["user_id"; "tenant_id"])),
                  at_time 1761652860000 first.2))
    [@ApiKeyFallbackService.storePartialInUserProfiles Sample.collaborators;
     @ApiKeyFallbackService.storeInUserSettings Sample.collaborators].
Proof.
  intros fresh w.
  apply (@C3_settings_upsert_conflicts_on_second_save Sample.collaborators
           Sample.user_U Sample.keys_abc Sample.encrypted_abc w 1761652860000);
    try reflexivity.
  - split; [reflexivity|vm_compute; reflexivity].
  - split; reflexivity.
  - intros col Hcol. cbn in Hcol.
    repeat (destruct Hcol as [<-|Hcol]; [reflexivity|]). destruct Hcol.
Defined.

(** ** The save path *)

Module SaveFacts.
Import ApiKeyFallbackService Reconciler.


Section WithExternals.
Context `{Externals}.





(** The guard of the save path: without a user id, or with the logout flag
    set, nothing is attempted and the world is as it was. *)
Lemma save_rejected (scope : TenantScope) (c : Partial.t) (w : World) :
  userId scope = None \/ justLoggedOut w = true ->
  save scope c w = (rejected, w).
Proof.
  unfold save. intros [Hnone|Hout].
  - rewrite Hnone. reflexivity.
  - rewrite Hout. destruct (userId scope); reflexivity.
Qed.


End WithExternals.

End SaveFacts.



(** [storeCredentialsEverywhere] swallows the failure of a write: with the
    session storage out of quota the call returns, having written nothing
    after the failing statement. *)
Example storeCredentialsEverywhere_catches :
  let full := {| Browser.items := ∅; Browser.quota_exceeded := true |} in
  let w := {| browser := Browser.with_sessionStorage full (Sample.a_browser []);
              cloud := Sample.database true [] |} in
  @storeCredentialsEverywhere Sample.collaborators HARDCODED_RETELL_CREDENTIALS w = w.
Proof. vm_compute. reflexivity. Qed.

(** ** Test data on the read path *)

Module ReadFacts.
Import ApiKeyFallbackService.



End ReadFacts.



(** With no real data in any tier (the profile row of the user holds
    neither key nor agent) both texts answer with the test identifiers of
    local storage; and when the database cannot be reached, the text of the
    proposed fixes answers with the whole local set, test key included. *)
Example test_data_returned_without_real_data :
  let empty_row : gmap string JS.json :=
    list_to_map [("id", JS.JNum 1); ("user_id", JS.JStr Sample.user_U);
                 ("tenant_id", JS.JStr "artlee");
                 ("encrypted_agent_config", JS.JObj [])] in
  let local_items := [("apikeys_" +:+ Sample.user_U, "envelope_test")] in
  let agents_only :=
    {| ApiKeyFallbackService.retell_api_key := None;
       ApiKeyFallbackService.call_agent_id := Some "test_call_agent_1";
       ApiKeyFallbackService.sms_agent_id := Some "test_sms_agent_1" |} in
  let test_set :=
    {| ApiKeyFallbackService.retell_api_key := Some "test_key_123";
       ApiKeyFallbackService.call_agent_id := Some "test_call_agent_1";
       ApiKeyFallbackService.sms_agent_id := Some "test_sms_agent_1" |} in
  @ApiKeyFallbackService.retrieveFromUserProfiles Sample.collaborators Sample.user_U
    (Sample.world local_items true [empty_row])
  = ApiKeyFallbackService.succeeded (Some agents_only)
  /\ @ApiKeyFallbackService.retrieveFromUserProfiles_as_recommended Sample.collaborators
       Sample.user_U (Sample.world local_items true [empty_row])
     = ApiKeyFallbackService.succeeded (Some agents_only)
  /\ @ApiKeyFallbackService.retrieveFromUserProfiles Sample.collaborators Sample.user_U
       (Sample.world local_items false [])
     = ApiKeyFallbackService.succeeded (Some test_set).
Proof. repeat split; vm_compute; reflexivity. Qed.

(** ** Tenant scope of the cloud writes *)

(** The row [storeInUserProfiles] writes names no tenant. *)
Lemma user_profiles_values_without_tenant `{Externals} (userId : string)
    (apiKeys : ApiKeyFallbackService.ApiKeys)
    (encryptedKeys : ApiKeyFallbackService.EncryptedKeys) (w : World) :
  JS.assoc "tenant_id"
    (ApiKeyFallbackService.user_profiles_values userId apiKeys encryptedKeys w) = None.
Proof.
  unfold ApiKeyFallbackService.user_profiles_values.
  destruct (ApiKeyFallbackService.retell_api_key encryptedKeys); reflexivity.
Qed.

(** The sibling write into the settings table does name the tenant: the row
    it inserts belongs to the current one. *)
Example storeInUserSettings_writes_tenant :
  let fresh := {| Supabase.rows := [];
                  Supabase.primary_key := ["id"];
                  Supabase.unique := [["id"]; ["user_id"; "tenant_id"]];
                  Supabase.defaults := ∅;
                  Supabase.schema_cache :=
                    ("api_key_updated_at" :: Sample.settings_columns) |} in
  let w := {| browser := Sample.a_browser [];
              cloud := Supabase.with_user_settings fresh (Sample.database true []) |} in
  let saved := @ApiKeyFallbackService.storeInUserSettings Sample.collaborators
                 Sample.user_U Sample.keys_abc Sample.encrypted_abc w in
  (ApiKeyFallbackService.status saved.1,
   map (fun r => r !! "tenant_id") (Supabase.rows (Supabase.user_settings (cloud saved.2))))
  = (ApiKeyFallbackService.success, [Some (JS.JStr getCurrentTenantId)]).
Proof. vm_compute. reflexivity. Qed.

(** C1 (the code at the failing input): the profile table holds a row of
    user U that belongs to tenant [medex]; a save for U under the current
    tenant [artlee] succeeds by overwriting the key and the agent config of
    that row, which still belongs to [medex]. With the upsert as it was
    before the conflict clause, the same save fails on that foreign row,
    while it is accepted when the row is not there. *)
Lemma C1_profile_upsert_overwrites_other_tenant_row :
  let w := Sample.world [] true [Sample.row_key_x "medex"] in
  let saved := @ApiKeyFallbackService.storeInUserProfiles Sample.collaborators
                 Sample.user_U Sample.keys_abc Sample.encrypted_abc w in
  getCurrentTenantId = "artlee"
  /\ ApiKeyFallbackService.is_success saved.1 = true
  /\ (exists r,
       Supabase.rows (Supabase.user_profiles (cloud saved.2)) = [r]
       /\ r !! "tenant_id" = Some (JS.JStr "medex")
       /\ r !! "user_id" = Some (JS.JStr Sample.user_U)
       /\ Sample.row_key_x "medex" !! "encrypted_retell_api_key"
          = Some (JS.JStr "cbc:key_x")
       /\ r !! "encrypted_retell_api_key" = Some (JS.JStr "cbc:key_abc")
       /\ r !! "encrypted_agent_config"
          = Some (JS.JObj [("call_agent_id", JS.JStr "agent_1")]))
  /\ ApiKeyFallbackService.error_of
       (@ApiKeyFallbackService.storeInUserProfiles_before_fix Sample.collaborators
          Sample.user_U Sample.keys_abc Sample.encrypted_abc w).1
     = Some (PostgrestFailure (Supabase.UniqueViolation ["user_id"]))
  /\ ApiKeyFallbackService.is_success
       (@ApiKeyFallbackService.storeInUserProfiles_before_fix Sample.collaborators
          Sample.user_U Sample.keys_abc Sample.encrypted_abc
          (Sample.world [] true [])).1 = true.
Proof.
  split; [reflexivity|]. split; [vm_compute; reflexivity|].
  split; [|split; vm_compute; reflexivity].
  eexists. split; [vm_compute; reflexivity|].
  repeat split; vm_compute; reflexivity.
Qed.

(** ** Further properties of the credentials configuration *)

Module CredentialsFacts.

(** Two prefixes that differ in their first character exclude each other. *)
Lemma prefix_first_char (a b : ascii) (p q s : string) :
  a <> b -> String.prefix (String a p) s = true ->
  String.prefix (String b q) s = false.
Proof.
  intros Hab. destruct s as [|x s]; [discriminate|]. cbn [String.prefix].
  destruct (ascii_dec a x) as [<-|]; [|discriminate]. intros _.
  destruct (ascii_dec b a) as [->|]; [contradiction|reflexivity].
Qed.

Lemma prefix_nonempty (a : ascii) (p s : string) :
  String.prefix (String a p) s = true -> String.eqb s "" = false.
Proof. destruct s; [discriminate|reflexivity]. Qed.

End CredentialsFacts.

(** X1: credentials that the test-data check flags never validate: a
    reserved test prefix on any field makes [validateCredentials] return
    false. *)
Theorem X1_test_credentials_never_validate (c : Partial.t) :
  isTestCredentials c = true -> validateCredentials c = false.
Proof.
  destruct c as [k a s]. unfold isTestCredentials, validateCredentials.
  cbn [Partial.apiKey Partial.callAgentId Partial.smsAgentId].
  intros Htest. apply orb_true_iff in Htest as [Htest|Hs];
    [apply orb_true_iff in Htest as [Hk|Ha]|].
  - destruct k as [k|]; [|discriminate]. unfold JS.startsWith in Hk.
    assert (Hne : String.eqb k "" = false)
      by (eapply CredentialsFacts.prefix_nonempty; exact Hk).
    assert (Hkey : JS.startsWith k "key_" = false).
    { unfold JS.startsWith.
      eapply (CredentialsFacts.prefix_first_char "t" "k"); [discriminate|exact Hk]. }
    cbn [JS.truthy JS.and_startsWith]. rewrite Hne, Hkey. reflexivity.
  - destruct a as [a|]; [|discriminate]. cbn [JS.and_startsWith] in Ha.
    apply andb_true_iff in Ha as [Hne Ha]. apply negb_true_iff in Hne.
    assert (Hagent : JS.startsWith a "agent_" = false).
    { unfold JS.startsWith in *.
      eapply (CredentialsFacts.prefix_first_char "t" "a"); [discriminate|exact Ha]. }
    cbn [JS.truthy JS.and_startsWith]. rewrite Hne, Hagent. cbn.
    rewrite !andb_false_r. reflexivity.
  - destruct s as [s|]; [|discriminate]. cbn [JS.and_startsWith] in Hs.
    apply andb_true_iff in Hs as [Hne Hs]. apply negb_true_iff in Hne.
    assert (Hagent : JS.startsWith s "agent_" = false).
    { unfold JS.startsWith in *.
      eapply (CredentialsFacts.prefix_first_char "t" "a"); [discriminate|exact Hs]. }
    cbn [JS.truthy]. rewrite Hne, Hagent. cbn.
    rewrite !andb_false_r. reflexivity.
Qed.

Lemma X1_witness_test_call_agent :
  validateCredentials
    {| Partial.apiKey := Some "key_abc";
       Partial.callAgentId := Some "test_call_agent_1761703878938";
       Partial.smsAgentId := None |} = false.
Proof.
  apply (X1_test_credentials_never_validate
           {| Partial.apiKey := Some "key_abc";
              Partial.callAgentId := Some "test_call_agent_1761703878938";
              Partial.smsAgentId := None |}).
  reflexivity.
Defined.

(** ** Further properties of the hardcoded persistence *)

Module PersistenceFacts.
Import CredentialsFacts.

Ltac store_unfold :=
  unfold storeCredentialsEverywhere, try_catch, bind, ret, Date_now,
    sessionStorage_setItem, localStorage_setItem, window_set, justLoggedOut,
    Browser.setItem, Browser.getItem, with_browser, Browser.with_sessionStorage,
    Browser.with_localStorage, Browser.with_window,
    CREDENTIAL_STORAGE_KEYS.EMERGENCY_RECOVERY_KEY,
    CREDENTIAL_STORAGE_KEYS.SESSION_BACKUP_KEY,
    CREDENTIAL_STORAGE_KEYS.MEMORY_BACKUP_KEY in *.

Ltac store_simpl :=
  cbn [fst snd browser cloud Browser.localStorage Browser.sessionStorage
       Browser.window Browser.clock Browser.items Browser.quota_exceeded] in *.

Ltac world_cases w :=
  destruct w as [[[[li []]|] [[si []]|] [g|] clk] db].

End PersistenceFacts.

(** X2: [storeCredentialsEverywhere] stays within its three backup slots:
    it never touches the cloud, and every other key of local storage (the
    logout flag among them), of session storage and of the global object
    holds what it held before. *)
Theorem X2_store_touches_only_backup_slots `{Externals}
    (credentials : RetellCredentials) (w : World) :
  let w' := storeCredentialsEverywhere credentials w in
  cloud w' = cloud w
  /\ justLoggedOut w' = justLoggedOut w
  /\ (forall key, key <> CREDENTIAL_STORAGE_KEYS.EMERGENCY_RECOVERY_KEY ->
        Observations.local_get key w' = Observations.local_get key w)
  /\ (forall key, key <> CREDENTIAL_STORAGE_KEYS.SESSION_BACKUP_KEY ->
        Observations.session_get key w' = Observations.session_get key w)
  /\ (forall key, key <> CREDENTIAL_STORAGE_KEYS.MEMORY_BACKUP_KEY ->
        Observations.memory_get key w' = Observations.memory_get key w).
Proof.
  intros w'. subst w'.
  assert (Hmain :
    let w' := storeCredentialsEverywhere credentials w in
    cloud w' = cloud w
    /\ (forall key, key <> CREDENTIAL_STORAGE_KEYS.EMERGENCY_RECOVERY_KEY ->
          Observations.local_get key w' = Observations.local_get key w)
    /\ (forall key, key <> CREDENTIAL_STORAGE_KEYS.SESSION_BACKUP_KEY ->
          Observations.session_get key w' = Observations.session_get key w)
    /\ (forall key, key <> CREDENTIAL_STORAGE_KEYS.MEMORY_BACKUP_KEY ->
          Observations.memory_get key w' = Observations.memory_get key w)).
  { unfold Observations.local_get, Observations.session_get,
      Observations.memory_get.
    PersistenceFacts.world_cases w; PersistenceFacts.store_unfold;
      PersistenceFacts.store_simpl;
      try (destruct (match li !! "justLoggedOut" with
                     | Some v => String.eqb v "true"
                     | None => false
                     end));
      PersistenceFacts.store_simpl;
      repeat split; intros key Hkey; cbn [mbind option_bind];
      PersistenceFacts.store_simpl;
      rewrite ?lookup_insert_ne by congruence; reflexivity. }
  destruct Hmain as (Hc & Hl & Hs & Hm).
  split; [exact Hc|]. split; [|split; [exact Hl|split; [exact Hs|exact Hm]]].
  specialize (Hl "justLoggedOut"). unfold Observations.local_get in Hl.
  unfold justLoggedOut.
  destruct (Browser.localStorage (browser (storeCredentialsEverywhere credentials w)));
    destruct (Browser.localStorage (browser w)); cbn in Hl;
    rewrite ?Hl by discriminate; try reflexivity.
  rewrite <- Hl by discriminate. reflexivity.
Qed.

(** X3: the three writes share one [try]: when the write to session
    storage throws, the call returns having written nothing at all, neither
    the memory backup nor the emergency copy in local storage. *)
Theorem X3_store_aborts_on_session_failure `{Externals}
    (credentials : RetellCredentials) (w : World) (ss : Browser.Storage) :
  Browser.sessionStorage (browser w) = Some ss ->
  Browser.quota_exceeded ss = true ->
  storeCredentialsEverywhere credentials w = w.
Proof.
  intros Hss Hq. unfold storeCredentialsEverywhere, try_catch.
  destruct (justLoggedOut w); [reflexivity|].
  unfold bind, Date_now, sessionStorage_setItem, Browser.setItem.
  rewrite Hss, Hq. reflexivity.
Qed.

Lemma X3_witness_session_full :
  let full := {| Browser.items := ∅; Browser.quota_exceeded := true |} in
  let w := {| browser := Browser.with_sessionStorage full (Sample.a_browser []);
              cloud := Sample.database true [] |} in
  @storeCredentialsEverywhere Sample.collaborators HARDCODED_RETELL_CREDENTIALS w = w.
Proof.
  intros full w.
  apply (@X3_store_aborts_on_session_failure Sample.collaborators
           HARDCODED_RETELL_CREDENTIALS w full); reflexivity.
Defined.

(** X4: with the logout flag unset and the three tiers present and
    writable, reading each backup slot after the call gives the stored
    credentials back, stamped with the time of the call. *)
Theorem X4_store_read_back `{Externals} (credentials : RetellCredentials) (w : World)
    (ls ss : Browser.Storage) (g : gmap string JS.json) :
  justLoggedOut w = false ->
  Browser.localStorage (browser w) = Some ls -> Browser.quota_exceeded ls = false ->
  Browser.sessionStorage (browser w) = Some ss -> Browser.quota_exceeded ss = false ->
  Browser.window (browser w) = Some g ->
  let w' := storeCredentialsEverywhere credentials w in
  let record := backup_record credentials (Browser.clock (browser w)) in
  Observations.session_get CREDENTIAL_STORAGE_KEYS.SESSION_BACKUP_KEY w'
  = Some (JSON_stringify record)
  /\ Observations.memory_get CREDENTIAL_STORAGE_KEYS.MEMORY_BACKUP_KEY w'
     = Some record
  /\ Observations.local_get CREDENTIAL_STORAGE_KEYS.EMERGENCY_RECOVERY_KEY w'
     = Some (JSON_stringify record)
  /\ JS.get (Some record) "apiKey" = Some (JS.JStr (apiKey credentials))
  /\ JS.get (Some record) "callAgentId" = Some (JS.JStr (callAgentId credentials))
  /\ JS.get (Some record) "smsAgentId" = Some (JS.JStr (smsAgentId credentials)).
Proof.
  intros Hflag Hls Hlq Hss Hsq Hwin w' record. subst w' record.
  unfold storeCredentialsEverywhere. rewrite Hflag.
  destruct w as [[ls0 ss0 g0 clk] db]. cbn in Hls, Hss, Hwin. subst ls0 ss0 g0.
  destruct ls as [li lq], ss as [si sq]. cbn in Hlq, Hsq. subst lq sq.
  unfold Observations.session_get, Observations.memory_get,
    Observations.local_get.
  PersistenceFacts.store_unfold. PersistenceFacts.store_simpl.
  cbn [mbind option_bind]. PersistenceFacts.store_simpl.
  rewrite !lookup_insert_eq. repeat split; reflexivity.
Qed.

Lemma X4_witness_read_back :
  let w := Sample.world [] true [] in
  let w' := @storeCredentialsEverywhere Sample.collaborators
              HARDCODED_RETELL_CREDENTIALS w in
  let record := backup_record HARDCODED_RETELL_CREDENTIALS (Browser.clock (browser w)) in
  Observations.session_get CREDENTIAL_STORAGE_KEYS.SESSION_BACKUP_KEY w'
  = Some (@JSON_stringify Sample.collaborators record)
  /\ Observations.memory_get CREDENTIAL_STORAGE_KEYS.MEMORY_BACKUP_KEY w'
     = Some record
  /\ Observations.local_get CREDENTIAL_STORAGE_KEYS.EMERGENCY_RECOVERY_KEY w'
     = Some (@JSON_stringify Sample.collaborators record)
  /\ JS.get (Some record) "apiKey"
     = Some (JS.JStr (apiKey HARDCODED_RETELL_CREDENTIALS))
  /\ JS.get (Some record) "callAgentId"
     = Some (JS.JStr (callAgentId HARDCODED_RETELL_CREDENTIALS))
  /\ JS.get (Some record) "smsAgentId"
     = Some (JS.JStr (smsAgentId HARDCODED_RETELL_CREDENTIALS)).
Proof.
  apply (@X4_store_read_back Sample.collaborators HARDCODED_RETELL_CREDENTIALS
           (Sample.world [] true []) (Sample.storage []) (Sample.storage []) ∅);
    reflexivity.
Defined.

(** X5: a later call of [storeCredentialsEverywhere] replaces what an
    earlier one left: storing one set and then another leaves the world as
    storing the second alone does, whatever tier is missing or full; in
    particular storing the same set twice changes nothing the second time. *)
Theorem X5_store_last_write_wins `{Externals} (c1 c2 : RetellCredentials) (w : World) :
  storeCredentialsEverywhere c2 (storeCredentialsEverywhere c1 w)
  = storeCredentialsEverywhere c2 w.
Proof.
  PersistenceFacts.world_cases w; PersistenceFacts.store_unfold;
    PersistenceFacts.store_simpl;
    try (destruct (match li !! "justLoggedOut" with
                   | Some v => String.eqb v "true"
                   | None => false
                   end) eqn:Hflag);
    PersistenceFacts.store_simpl;
    rewrite ?lookup_insert_ne by discriminate; rewrite ?Hflag;
    PersistenceFacts.store_simpl;
    rewrite ?insert_insert_eq; reflexivity.
Qed.

(** X6: [initializeCredentialPersistence] is [storeCredentialsEverywhere]
    applied to the hardcoded credentials, its own guard adding nothing to
    the callee's; and a later run replaces what an earlier one left: after
    it the world is as if only the later one had run, its backup slots
    stamped with the later time. *)
Theorem X6_initialize_persistence_stores_hardcoded `{Externals} (w : World) :
  initializeCredentialPersistence w
  = storeCredentialsEverywhere HARDCODED_RETELL_CREDENTIALS w
  /\ forall later : Z,
       initializeCredentialPersistence (at_time later (initializeCredentialPersistence w))
       = initializeCredentialPersistence (at_time later w).
Proof.
  assert (Heq : forall v, initializeCredentialPersistence v
                          = storeCredentialsEverywhere HARDCODED_RETELL_CREDENTIALS v).
  { intros v. unfold initializeCredentialPersistence.
    destruct (justLoggedOut v) eqn:Hflag; [|reflexivity].
    unfold storeCredentialsEverywhere, try_catch. rewrite Hflag. reflexivity. }
  split; [apply Heq|]. intros later. rewrite !Heq. clear Heq.
  unfold at_time, Browser.with_clock.
  PersistenceFacts.world_cases w; PersistenceFacts.store_unfold;
    PersistenceFacts.store_simpl;
    try (destruct (match li !! "justLoggedOut" with
                   | Some v => String.eqb v "true"
                   | None => false
                   end) eqn:Hflag);
    PersistenceFacts.store_simpl;
    rewrite ?lookup_insert_ne by discriminate; rewrite ?Hflag;
    PersistenceFacts.store_simpl;
    rewrite ?insert_insert_eq; reflexivity.
Qed.

(** ** Further properties of the global service initialiser *)

Module InitializerTraceFacts.
Import GlobalServiceInitializer Observations.

Lemma body_completes_fields (p : nat) (s : Services) (st : State) :
  body_runs (body_completes p s st) = body_runs st
  /\ initPromise (body_completes p s st) = initPromise st
  /\ length (promises (body_completes p s st)) = length (promises st).
Proof.
  unfold body_completes.
  destruct (promises st !! p) as [[| |]|]; try (repeat split; reflexivity).
  destruct (syncWithRetellService_resolves s); [destruct (window_defined s)|];
    unfold body_throws; cbn; rewrite length_insert; repeat split; reflexivity.
Qed.

Lemma counted_step (k : nat) (st : State) (e : Event) :
  counted k st -> counted (if is_force e then S k else k) (step st e).
Proof.
  intros Hc. destruct e as [| |p s]; cbn [is_force step].
  - destruct (initialized st) eqn:Hi.
    { rewrite InitializerFacts.initialize_done by exact Hi. exact Hc. }
    destruct (initPromise st) as [q|] eqn:Hq.
    { rewrite (InitializerFacts.initialize_memoised st q) by assumption. exact Hc. }
    destruct Hc as (Hruns & Hk & Hnone & Hsome).
    destruct (Hnone Hq) as [Hnil _].
    unfold initialize. rewrite Hi, Hq.
    unfold performInitialization, counted. cbn. rewrite Hruns, Hnil in *. cbn in *.
    repeat split; try lia; try discriminate.
    intros p [= <-]. lia.
  - destruct Hc as (Hruns & Hk & Hnone & Hsome).
    unfold forceReinitialize, initialize, performInitialization, counted. cbn.
    rewrite length_app. cbn. repeat split; try lia; try discriminate.
    intros p [= <-]. lia.
  - destruct Hc as (Hruns & Hk & Hnone & Hsome).
    destruct (body_completes_fields p s st) as (Hb & Hp & Hl).
    unfold counted. rewrite Hb, Hp, Hl.
    split; [assumption|]. split; [lia|]. split; [|exact Hsome].
    intros Hq. destruct (Hnone Hq) as [Hnil Hi].
    unfold body_completes. rewrite Hnil, lookup_nil. split; [exact Hnil|exact Hi].
Qed.

Lemma counted_run (events : list Event) (k : nat) (st : State) :
  counted k st -> counted (k + forces events) (run events st).
Proof.
  revert k st. induction events as [|e events IH]; intros k st Hc.
  - unfold forces. cbn. rewrite Nat.add_0_r. exact Hc.
  - cbn [run fold_left]. pose proof (counted_step k st e Hc) as Hstep.
    apply IH in Hstep. unfold run in Hstep.
    unfold forces in *. cbn [List.filter].
    destruct (is_force e); cbn [length] in *.
    + replace (k + S (length (List.filter is_force events)))
        with (S k + length (List.filter is_force events)) by lia.
      exact Hstep.
    + exact Hstep.
Qed.

End InitializerTraceFacts.

(** X7: over every sequence of calls and completions, [forceReinitialize]
    included, the body of the initialisation is entered once per forced
    restart and at most once more; every entry has its promise, and the
    memoised promise is one of them. *)
Theorem X7_body_runs_bounded_by_restarts (events : list GlobalServiceInitializer.Event) :
  let st := GlobalServiceInitializer.run events GlobalServiceInitializer.initial in
  let k := length (List.filter GlobalServiceInitializer.is_force events) in
  k <= GlobalServiceInitializer.body_runs st <= S k
  /\ GlobalServiceInitializer.body_runs st
     = length (GlobalServiceInitializer.promises st)
  /\ (forall p, GlobalServiceInitializer.initPromise st = Some p ->
                p < length (GlobalServiceInitializer.promises st)).
Proof.
  intros st k.
  assert (Hinit : Observations.counted 0 GlobalServiceInitializer.initial).
  { repeat split; cbn; try lia; discriminate. }
  destruct (InitializerTraceFacts.counted_run events 0 _ Hinit) as (Hruns & Hk & _ & Hsome).
  repeat split; try assumption; apply Hk.
Qed.

(** X8: the flag is set only by a run whose chat synchronisation
    succeeded where no global [window] exists: while every run that ends
    either fails at that step or runs where [window] is defined, the
    services are never marked initialised, so never in a browser; whereas a
    run without [window] in which only the loading of the credentials fails
    still sets the flag. *)
Theorem X8_initialized_needs_chat_sync (events : list GlobalServiceInitializer.Event) :
  (forall p s, In (GlobalServiceInitializer.completion_of p s) events ->
               GlobalServiceInitializer.syncWithRetellService_resolves s = false
               \/ GlobalServiceInitializer.window_defined s = true) ->
  GlobalServiceInitializer.initialized
    (GlobalServiceInitializer.run events GlobalServiceInitializer.initial) = false
  /\ (forall st p,
        GlobalServiceInitializer.promises st !! p = Some GlobalServiceInitializer.pending ->
        GlobalServiceInitializer.initialized
          (GlobalServiceInitializer.body_completes p
             {| GlobalServiceInitializer.loadCredentialsAsync_resolves := false;
                GlobalServiceInitializer.syncWithRetellService_resolves := true;
                GlobalServiceInitializer.window_defined := false |} st)
        = true).
Proof.
  intros Hall. split.
  - assert (Hgen : forall st,
              GlobalServiceInitializer.initialized st = false ->
              GlobalServiceInitializer.initialized
                (GlobalServiceInitializer.run events st) = false).
    { induction events as [|e events IH]; intros st Hi; [exact Hi|].
      cbn [GlobalServiceInitializer.run fold_left]. apply IH.
      - intros p s Hin. apply (Hall p s). right. exact Hin.
      - destruct e as [| |p s]; cbn [GlobalServiceInitializer.step].
        + unfold GlobalServiceInitializer.initialize. rewrite Hi.
          destruct (GlobalServiceInitializer.initPromise st); [exact Hi|].
          cbn. exact Hi.
        + unfold GlobalServiceInitializer.forceReinitialize,
            GlobalServiceInitializer.initialize. reflexivity.
        + unfold GlobalServiceInitializer.body_completes,
            GlobalServiceInitializer.body_throws.
          destruct (GlobalServiceInitializer.promises st !! p) as [[| |]|];
            try exact Hi.
          destruct (Hall p s (or_introl eq_refl)) as [Hs|Hw].
          * rewrite Hs. exact Hi.
          * rewrite Hw.
            destruct (GlobalServiceInitializer.syncWithRetellService_resolves s);
              exact Hi. }
    apply Hgen. reflexivity.
  - intros st p Hp. unfold GlobalServiceInitializer.body_completes.
    rewrite Hp. reflexivity.
Qed.

Lemma X8_witness_sync_fails :
  let bad := {| GlobalServiceInitializer.loadCredentialsAsync_resolves := true;
                GlobalServiceInitializer.syncWithRetellService_resolves := false;
                GlobalServiceInitializer.window_defined := false |} in
  let in_browser := {| GlobalServiceInitializer.loadCredentialsAsync_resolves := true;
                       GlobalServiceInitializer.syncWithRetellService_resolves := true;
                       GlobalServiceInitializer.window_defined := true |} in
  let events := [GlobalServiceInitializer.call_initialize;
                 GlobalServiceInitializer.completion_of 0 bad;
                 GlobalServiceInitializer.call_forceReinitialize;
                 GlobalServiceInitializer.completion_of 1 in_browser] in
  GlobalServiceInitializer.initialized
    (GlobalServiceInitializer.run events GlobalServiceInitializer.initial) = false
  /\ (forall st p,
        GlobalServiceInitializer.promises st !! p = Some GlobalServiceInitializer.pending ->
        GlobalServiceInitializer.initialized
          (GlobalServiceInitializer.body_completes p
             {| GlobalServiceInitializer.loadCredentialsAsync_resolves := false;
                GlobalServiceInitializer.syncWithRetellService_resolves := true;
                GlobalServiceInitializer.window_defined := false |} st)
        = true).
Proof.
  intros bad in_browser events. apply (X8_initialized_needs_chat_sync events).
  intros p s [Hin|[Hin|[Hin|[Hin|[]]]]]; try discriminate;
    injection Hin as _ <-; [left|right]; reflexivity.
Defined.

(** X9: a forced restart does not cancel the run it supersedes: when that
    older run ends well (its chat synchronisation resolves and no global
    [window] exists where it runs) it sets the flag, and from then on
    [initialize] returns at once, although the run the restart began is
    still pending behind the memoised promise. *)
Theorem X9_superseded_run_sets_flag (st : GlobalServiceInitializer.State) (p : nat)
    (s : GlobalServiceInitializer.Services) :
  GlobalServiceInitializer.promises st !! p = Some GlobalServiceInitializer.pending ->
  GlobalServiceInitializer.syncWithRetellService_resolves s = true ->
  GlobalServiceInitializer.window_defined s = false ->
  let fresh := length (GlobalServiceInitializer.promises st) in
  let st' := GlobalServiceInitializer.body_completes p s
               (GlobalServiceInitializer.forceReinitialize st).2 in
  GlobalServiceInitializer.initialized st' = true
  /\ GlobalServiceInitializer.initPromise st' = Some fresh
  /\ GlobalServiceInitializer.promises st' !! fresh
     = Some GlobalServiceInitializer.pending
  /\ GlobalServiceInitializer.initialize st' = (GlobalServiceInitializer.undefined, st').
Proof.
  intros Hp Hs Hw fresh st'.
  assert (Hlt : p < length (GlobalServiceInitializer.promises st))
    by (eapply lookup_lt_Some; exact Hp).
  assert (Hst' : st' =
            {| GlobalServiceInitializer.initialized := true;
               GlobalServiceInitializer.initPromise := Some fresh;
               GlobalServiceInitializer.promises :=
                 <[p := GlobalServiceInitializer.fulfilled]>
                   (GlobalServiceInitializer.promises st
                    ++ [GlobalServiceInitializer.pending])%list;
               GlobalServiceInitializer.body_runs :=
                 S (GlobalServiceInitializer.body_runs st) |}).
  { unfold st', GlobalServiceInitializer.forceReinitialize,
      GlobalServiceInitializer.initialize,
      GlobalServiceInitializer.performInitialization,
      GlobalServiceInitializer.body_completes. cbn.
    rewrite lookup_app_l by exact Hlt. rewrite Hp, Hs, Hw. reflexivity. }
  rewrite Hst'. cbn. repeat split.
  rewrite list_lookup_insert_ne by (unfold fresh; lia).
  rewrite lookup_app_r by (unfold fresh; lia).
  unfold fresh. rewrite Nat.sub_diag. reflexivity.
Qed.

Lemma X9_witness_restart_in_flight :
  let st := (GlobalServiceInitializer.initialize GlobalServiceInitializer.initial).2 in
  let ok := {| GlobalServiceInitializer.loadCredentialsAsync_resolves := true;
               GlobalServiceInitializer.syncWithRetellService_resolves := true;
               GlobalServiceInitializer.window_defined := false |} in
  let st' := GlobalServiceInitializer.body_completes 0 ok
               (GlobalServiceInitializer.forceReinitialize st).2 in
  GlobalServiceInitializer.initialized st' = true
  /\ GlobalServiceInitializer.initPromise st' = Some 1
  /\ GlobalServiceInitializer.promises st' !! 1 = Some GlobalServiceInitializer.pending
  /\ GlobalServiceInitializer.initialize st' = (GlobalServiceInitializer.undefined, st').
Proof.
  intros st ok. apply (X9_superseded_run_sets_flag st 0 ok); reflexivity.
Defined.

(** X10: once the flag is set, only [forceReinitialize] unsets it: calls
    of [initialize] and completions of runs leave it set, start no run and
    keep the memoised promise. *)
Theorem X10_initialized_is_stable (events : list GlobalServiceInitializer.Event)
    (st : GlobalServiceInitializer.State) :
  GlobalServiceInitializer.initialized st = true ->
  forallb (fun e => negb (GlobalServiceInitializer.is_force e)) events = true ->
  let st' := GlobalServiceInitializer.run events st in
  GlobalServiceInitializer.initialized st' = true
  /\ GlobalServiceInitializer.body_runs st' = GlobalServiceInitializer.body_runs st
  /\ GlobalServiceInitializer.initPromise st' = GlobalServiceInitializer.initPromise st.
Proof.
  revert st. induction events as [|e events IH]; intros st Hi Hall; [repeat split; exact Hi|].
  cbn in Hall. apply andb_true_iff in Hall as [He Hall].
  cbn [GlobalServiceInitializer.run fold_left].
  assert (Hstep : GlobalServiceInitializer.initialized (GlobalServiceInitializer.step st e) = true
                  /\ GlobalServiceInitializer.body_runs (GlobalServiceInitializer.step st e)
                     = GlobalServiceInitializer.body_runs st
                  /\ GlobalServiceInitializer.initPromise (GlobalServiceInitializer.step st e)
                     = GlobalServiceInitializer.initPromise st).
  { destruct e as [| |p s]; [|discriminate|]; cbn [GlobalServiceInitializer.step].
    - unfold GlobalServiceInitializer.initialize. rewrite Hi. repeat split. exact Hi.
    - destruct (InitializerTraceFacts.body_completes_fields p s st) as (Hb & Hp & _).
      repeat split; try assumption.
      unfold GlobalServiceInitializer.body_completes.
      destruct (GlobalServiceInitializer.promises st !! p) as [[| |]|]; try exact Hi.
      destruct (GlobalServiceInitializer.syncWithRetellService_resolves s);
        [destruct (GlobalServiceInitializer.window_defined s)|];
        first [reflexivity|exact Hi]. }
  destruct Hstep as (Hi' & Hb' & Hp').
  destruct (IH _ Hi' Hall) as (H1 & H2 & H3).
  unfold GlobalServiceInitializer.run in *.
  repeat split; [exact H1|rewrite H2; exact Hb'|rewrite H3; exact Hp'].
Qed.

Lemma X10_witness_after_success :
  let ok := {| GlobalServiceInitializer.loadCredentialsAsync_resolves := true;
               GlobalServiceInitializer.syncWithRetellService_resolves := true;
               GlobalServiceInitializer.window_defined := false |} in
  let st := GlobalServiceInitializer.run
              [GlobalServiceInitializer.call_initialize;
               GlobalServiceInitializer.completion_of 0 ok]
              GlobalServiceInitializer.initial in
  let st' := GlobalServiceInitializer.run
               [GlobalServiceInitializer.call_initialize;
                GlobalServiceInitializer.completion_of 0 ok;
                GlobalServiceInitializer.call_initialize] st in
  GlobalServiceInitializer.initialized st' = true
  /\ GlobalServiceInitializer.body_runs st' = GlobalServiceInitializer.body_runs st
  /\ GlobalServiceInitializer.initPromise st' = GlobalServiceInitializer.initPromise st.
Proof.
  intros ok st.
  apply (X10_initialized_is_stable
           [GlobalServiceInitializer.call_initialize;
            GlobalServiceInitializer.completion_of 0 ok;
            GlobalServiceInitializer.call_initialize] st); reflexivity.
Defined.

(** X11: [getStatus] never reports more than is true and never throws:
    it says initialised only when the flag is set; and as soon as one getter
    of a service throws (or the global object is undefined) it answers with
    the fallback object, which says not initialised and nothing configured
    even when the services are. *)
Theorem X11_getStatus_falls_back (st : GlobalServiceInitializer.State)
    (g : ServiceStatus.Getters) :
  (ServiceStatus.initialized (ServiceStatus.getStatus st g) = true ->
   GlobalServiceInitializer.initialized st = true)
  /\ (ServiceStatus.has_error (ServiceStatus.getStatus st g) = true <->
      ServiceStatus.retell_isConfigured g = None
      \/ ServiceStatus.chat_isConfigured g = None
      \/ ServiceStatus.window_services g = None
      \/ ServiceStatus.getApiKey g = None
      \/ ServiceStatus.getCallAgentId g = None
      \/ ServiceStatus.getSmsAgentId g = None)
  /\ (ServiceStatus.has_error (ServiceStatus.getStatus st g) = true ->
      ServiceStatus.getStatus st g = ServiceStatus.fallback)
  /\ (ServiceStatus.has_error (ServiceStatus.getStatus st g) = false ->
      ServiceStatus.initialized (ServiceStatus.getStatus st g)
      = GlobalServiceInitializer.initialized st
      /\ (ServiceStatus.hasApiKey (ServiceStatus.credentials (ServiceStatus.getStatus st g))
          = true <->
          exists k, ServiceStatus.getApiKey g = Some (Some k) /\ k <> "")).
Proof.
  destruct g as [[rc|] [cc|] [[ps av]|] [k|] [a|] [s|]];
    unfold ServiceStatus.getStatus; cbn;
    (split; [intros; try discriminate; assumption|]);
    (split; [split; [intros; try discriminate; tauto
                    |intros [?|[?|[?|[?|[?|?]]]]]; try discriminate; reflexivity]|]);
    (split; [intros; try discriminate; reflexivity|]);
    intros; try discriminate.
  split; [reflexivity|]. destruct k as [k|]; cbn.
  - split.
    + intros Hne. exists k. split; [reflexivity|].
      apply negb_true_iff in Hne. apply String.eqb_neq. exact Hne.
    + intros (k' & [= <-] & Hne). apply negb_true_iff. apply String.eqb_neq. exact Hne.
  - split; [discriminate|]. intros (k' & Hk & _). discriminate.
Qed.

(** ** Further properties of the fallback storage service *)

Module ServiceFacts.
Import Supabase ApiKeyFallbackService UpsertFacts.

Lemma with_rows_same (t : Table) : with_rows (rows t) t = t.
Proof. destruct t; reflexivity. Qed.

Lemma storageKey_inj (u u' : string) : storageKey u = storageKey u' -> u = u'.
Proof. unfold storageKey. intros Heq. injection Heq. auto. Qed.

Lemma storageKey_not_flag (u : string) : storageKey u <> "justLoggedOut".
Proof. unfold storageKey. simpl. discriminate. Qed.

End ServiceFacts.

(** X12: the two recorded texts of the fixed [retrieveFromUserProfiles]
    differ only in the [catch] block. Whenever the text of the root-cause
    analysis succeeds, both give the same answer; when it reports an error
    (the query failed or the decryption threw), the text of the proposed
    fixes answers with what local storage holds if that read succeeds, and
    with the same error otherwise. So under the text of the proposed fixes a
    successful local read makes the retrieval succeed whatever the database
    does, and under the other text it does not. *)
Theorem X12_fallback_texts_differ_in_catch `{Externals} (userId : string) (w : World) :
  let proposed := ApiKeyFallbackService.retrieveFromUserProfiles userId w in
  let recommended :=
    ApiKeyFallbackService.retrieveFromUserProfiles_as_recommended userId w in
  let localStorageResult := ApiKeyFallbackService.retrieveFromLocalStorage userId w in
  (ApiKeyFallbackService.is_success recommended = true -> proposed = recommended)
  /\ (ApiKeyFallbackService.is_success recommended = false ->
      proposed = if ApiKeyFallbackService.is_success localStorageResult
                 then localStorageResult else recommended)
  /\ (ApiKeyFallbackService.is_success localStorageResult = true ->
      ApiKeyFallbackService.is_success proposed = true).
Proof.
  intros proposed recommended localStorageResult.
  subst proposed recommended localStorageResult.
  unfold ApiKeyFallbackService.retrieveFromUserProfiles,
    ApiKeyFallbackService.retrieveFromUserProfiles_as_recommended,
    ApiKeyFallbackService.decrypted_key.
  set (localStorageResult := ApiKeyFallbackService.retrieveFromLocalStorage userId w).
  assert (Hcatch : forall e : JsError,
            (ApiKeyFallbackService.is_success
               (ApiKeyFallbackService.failed e : ApiKeyFallbackService.Result
                                                   ApiKeyFallbackService.ApiKeys)
             = true ->
             (if ApiKeyFallbackService.is_success localStorageResult
              then localStorageResult else ApiKeyFallbackService.failed e)
             = ApiKeyFallbackService.failed e)
            /\ (ApiKeyFallbackService.is_success
                  (ApiKeyFallbackService.failed e : ApiKeyFallbackService.Result
                                                      ApiKeyFallbackService.ApiKeys)
                = false ->
                (if ApiKeyFallbackService.is_success localStorageResult
                 then localStorageResult else ApiKeyFallbackService.failed e)
                = (if ApiKeyFallbackService.is_success localStorageResult
                   then localStorageResult else ApiKeyFallbackService.failed e))
            /\ (ApiKeyFallbackService.is_success localStorageResult = true ->
                ApiKeyFallbackService.is_success
                  (if ApiKeyFallbackService.is_success localStorageResult
                   then localStorageResult else ApiKeyFallbackService.failed e) = true)).
  { intros e. split; [discriminate|]. split; [reflexivity|].
    intros Hl. rewrite Hl. exact Hl. }
  assert (Htry : forall r : ApiKeyFallbackService.Result ApiKeyFallbackService.ApiKeys,
            ApiKeyFallbackService.is_success r = true ->
            (ApiKeyFallbackService.is_success r = true -> r = r)
            /\ (ApiKeyFallbackService.is_success r = false ->
                r = if ApiKeyFallbackService.is_success localStorageResult
                    then localStorageResult else r)
            /\ (ApiKeyFallbackService.is_success localStorageResult = true ->
                ApiKeyFallbackService.is_success r = true)).
  { intros r Hr. split; [reflexivity|]. split; [congruence|]. intros _. exact Hr. }
  destruct (ApiKeyFallbackService.query_user_profiles userId w) as [e|row];
    [apply Hcatch|].
  destruct (JS.truthy_json (row !! "encrypted_retell_api_key")).
  - destruct (JS.text (row !! "encrypted_retell_api_key")) as [c|]; [|apply Hcatch].
    destruct (decryptString c); [|apply Hcatch].
    apply Htry. destruct (negb _ && negb _); [|reflexivity].
    destruct (ApiKeyFallbackService.is_success localStorageResult),
      (ApiKeyFallbackService.data localStorageResult); reflexivity.
  - apply Htry. destruct (negb _ && negb _); [|reflexivity].
    destruct (ApiKeyFallbackService.is_success localStorageResult),
      (ApiKeyFallbackService.data localStorageResult); reflexivity.
Qed.

(** The two texts apart: the database unreachable, agent identifiers in
    local storage. *)
Example fallback_texts_differ_offline :
  let w := Sample.world [("apikeys_" +:+ Sample.user_U, "envelope_agent_y")] false [] in
  ApiKeyFallbackService.is_success
    (@ApiKeyFallbackService.retrieveFromUserProfiles Sample.collaborators
       Sample.user_U w) = true
  /\ @ApiKeyFallbackService.retrieveFromUserProfiles_as_recommended Sample.collaborators
       Sample.user_U w
     = ApiKeyFallbackService.failed (PostgrestFailure Supabase.FetchFailed).
Proof. split; vm_compute; reflexivity. Qed.

(** X13: when the profile row holds the key and a call agent id, the
    retrieval answers from the row alone: local storage is not consulted, so
    the answer is the same whatever the browser holds. *)
Theorem X13_cloud_agent_ids_win `{Externals} (userId : string) (w : World)
    (row : gmap string JS.json) (ciphertext key agent : string) :
  ApiKeyFallbackService.query_user_profiles userId w = inr row ->
  row !! "encrypted_retell_api_key" = Some (JS.JStr ciphertext) ->
  ciphertext <> "" ->
  decryptString ciphertext = Some key ->
  JS.get (row !! "encrypted_agent_config") "call_agent_id" = Some (JS.JStr agent) ->
  agent <> "" ->
  forall w', cloud w' = cloud w ->
    ApiKeyFallbackService.retrieveFromUserProfiles userId w'
    = ApiKeyFallbackService.succeeded
        (Some {| ApiKeyFallbackService.retell_api_key := Some key;
                 ApiKeyFallbackService.call_agent_id := Some agent;
                 ApiKeyFallbackService.sms_agent_id :=
                   ApiKeyFallbackService.if_truthy
                     (JS.text (JS.get (row !! "encrypted_agent_config")
                                 "sms_agent_id")) |}).
Proof.
  intros Hq Hcol Hne Hdec Hcall Hagent w' Hcloud.
  unfold ApiKeyFallbackService.retrieveFromUserProfiles.
  assert (Hq' : ApiKeyFallbackService.query_user_profiles userId w' = inr row).
  { unfold ApiKeyFallbackService.query_user_profiles in *. rewrite Hcloud. exact Hq. }
  rewrite Hq', Hcol. cbn [JS.truthy_json JS.text].
  apply String.eqb_neq in Hne, Hagent. rewrite Hne. cbn [negb].
  rewrite Hdec, Hcall. cbn [JS.truthy_json JS.text]. rewrite Hagent. cbn [negb andb].
  unfold ApiKeyFallbackService.if_truthy.
  destruct (JS.get (row !! "encrypted_agent_config") "sms_agent_id") as [[|s|z|f]|];
    cbn; try reflexivity.
  match goal with |- context [if ?b then _ else _] => destruct b end; reflexivity.
Qed.

Lemma X13_witness_row_with_agent :
  let row_with_agent : gmap string JS.json :=
    list_to_map [("id", JS.JNum 1); ("user_id", JS.JStr Sample.user_U);
                 ("tenant_id", JS.JStr "artlee");
                 ("encrypted_retell_api_key", JS.JStr "cbc:key_x");
                 ("encrypted_agent_config",
                  JS.JObj [("call_agent_id", JS.JStr "agent_1")])] in
  let w := Sample.world [] true [row_with_agent] in
  let w' := Sample.world [("apikeys_" +:+ Sample.user_U, "envelope_agent_y")] true
              [row_with_agent] in
  @ApiKeyFallbackService.retrieveFromUserProfiles Sample.collaborators Sample.user_U w'
  = ApiKeyFallbackService.succeeded
      (Some {| ApiKeyFallbackService.retell_api_key := Some "key_x";
               ApiKeyFallbackService.call_agent_id := Some "agent_1";
               ApiKeyFallbackService.sms_agent_id := None |}).
Proof.
  intros row_with_agent w w'.
  apply (@X13_cloud_agent_ids_win Sample.collaborators Sample.user_U w
           (Supabase.project ["encrypted_retell_api_key"; "encrypted_agent_config"]
              row_with_agent)
           "cbc:key_x" "key_x" "agent_1");
    try (vm_compute; reflexivity); vm_compute; discriminate.
Defined.

(** X14: on the merge path only the agent identifiers are taken from local
    storage: when the profile row carries no key and no agent identifier,
    the answer has no API key, even if local storage holds one. *)
Theorem X14_local_key_not_merged `{Externals} (userId : string) (w : World)
    (row : gmap string JS.json) (l : ApiKeyFallbackService.ApiKeys) :
  ApiKeyFallbackService.query_user_profiles userId w = inr row ->
  JS.truthy_json (row !! "encrypted_retell_api_key") = false ->
  JS.truthy_json (JS.get (row !! "encrypted_agent_config") "call_agent_id") = false ->
  JS.truthy_json (JS.get (row !! "encrypted_agent_config") "sms_agent_id") = false ->
  ApiKeyFallbackService.retrieveFromLocalStorage userId w
  = ApiKeyFallbackService.succeeded (Some l) ->
  ApiKeyFallbackService.retrieveFromUserProfiles userId w
  = ApiKeyFallbackService.succeeded
      (Some {| ApiKeyFallbackService.retell_api_key := None;
               ApiKeyFallbackService.call_agent_id :=
                 ApiKeyFallbackService.if_truthy (ApiKeyFallbackService.call_agent_id l);
               ApiKeyFallbackService.sms_agent_id :=
                 ApiKeyFallbackService.if_truthy (ApiKeyFallbackService.sms_agent_id l) |}).
Proof.
  intros Hq Hkey Hcall Hsms Hlocal.
  unfold ApiKeyFallbackService.retrieveFromUserProfiles.
  rewrite Hq, Hkey, Hcall, Hsms, Hlocal. reflexivity.
Qed.

Lemma X14_witness_local_key_dropped :
  let row_without_key : gmap string JS.json :=
    list_to_map [("id", JS.JNum 1); ("user_id", JS.JStr Sample.user_U);
                 ("tenant_id", JS.JStr "artlee");
                 ("encrypted_agent_config", JS.JObj [])] in
  let w := Sample.world [("apikeys_" +:+ Sample.user_U, "envelope_test")] true
             [row_without_key] in
  @ApiKeyFallbackService.retrieveFromUserProfiles Sample.collaborators Sample.user_U w
  = ApiKeyFallbackService.succeeded
      (Some {| ApiKeyFallbackService.retell_api_key := None;
               ApiKeyFallbackService.call_agent_id := Some "test_call_agent_1";
               ApiKeyFallbackService.sms_agent_id := Some "test_sms_agent_1" |}).
Proof.
  intros row_without_key w.
  apply (@X14_local_key_not_merged Sample.collaborators Sample.user_U w
           (Supabase.project ["encrypted_retell_api_key"; "encrypted_agent_config"]
              row_without_key)
           {| ApiKeyFallbackService.retell_api_key := Some "test_key_123";
              ApiKeyFallbackService.call_agent_id := Some "test_call_agent_1";
              ApiKeyFallbackService.sms_agent_id := Some "test_sms_agent_1" |});
    vm_compute; reflexivity.
Defined.

(** X15: the reads are scoped to the current tenant: replacing the rows of
    the profile table and of the settings table by rows that are the same
    for the current tenant changes the answer of neither
    [retrieveFromUserProfiles] nor [retrieveFromUserSettings]. *)
Theorem X15_reads_ignore_other_tenants `{Externals} (userId : string) (w : World)
    (profile_rows settings_rows : list (gmap string JS.json)) :
  List.filter (fun r => Supabase.eq_filter r ("tenant_id", getCurrentTenantId))
    profile_rows
  = List.filter (fun r => Supabase.eq_filter r ("tenant_id", getCurrentTenantId))
      (Supabase.rows (Supabase.user_profiles (cloud w))) ->
  List.filter (fun r => Supabase.eq_filter r ("tenant_id", getCurrentTenantId))
    settings_rows
  = List.filter (fun r => Supabase.eq_filter r ("tenant_id", getCurrentTenantId))
      (Supabase.rows (Supabase.user_settings (cloud w))) ->
  ApiKeyFallbackService.retrieveFromUserProfiles userId
    (Observations.with_profile_rows profile_rows w)
  = ApiKeyFallbackService.retrieveFromUserProfiles userId w
  /\ ApiKeyFallbackService.retrieveFromUserSettings userId
       (Observations.with_settings_rows settings_rows w)
     = ApiKeyFallbackService.retrieveFromUserSettings userId w.
Proof.
  intros Hprofiles Hsettings. split.
  - unfold ApiKeyFallbackService.retrieveFromUserProfiles.
    assert (Hq : ApiKeyFallbackService.query_user_profiles userId
                   (Observations.with_profile_rows profile_rows w)
                 = ApiKeyFallbackService.query_user_profiles userId w).
    { unfold ApiKeyFallbackService.query_user_profiles, Observations.with_profile_rows,
        Supabase.request. cbn.
      destruct (Supabase.online (cloud w)); [|reflexivity].
      rewrite <- (ServiceFacts.with_rows_same (Supabase.user_profiles (cloud w))) at 2.
      apply RetrievalFacts.select_single_tenant_scoped. exact Hprofiles. }
    rewrite Hq. reflexivity.
  - unfold ApiKeyFallbackService.retrieveFromUserSettings,
      Observations.with_settings_rows, Supabase.request. cbn.
    destruct (Supabase.online (cloud w)); [|reflexivity].
    rewrite <- (ServiceFacts.with_rows_same (Supabase.user_settings (cloud w))) at 2.
    rewrite (RetrievalFacts.select_single_tenant_scoped _ userId getCurrentTenantId
               _ settings_rows (Supabase.rows (Supabase.user_settings (cloud w)))
               Hsettings).
    reflexivity.
Qed.

Lemma X15_witness_foreign_rows :
  let w := Sample.world [] true [Sample.row_key_x "artlee"] in
  @ApiKeyFallbackService.retrieveFromUserProfiles Sample.collaborators Sample.user_U
    (Observations.with_profile_rows
       [Sample.row_key_x "medex"; Sample.row_key_x "artlee"] w)
  = @ApiKeyFallbackService.retrieveFromUserProfiles Sample.collaborators Sample.user_U w
  /\ ApiKeyFallbackService.retrieveFromUserSettings Sample.user_U
       (Observations.with_settings_rows [Sample.row_key_x "medex"] w)
     = ApiKeyFallbackService.retrieveFromUserSettings Sample.user_U w.
Proof.
  intros w.
  apply (@X15_reads_ignore_other_tenants Sample.collaborators Sample.user_U w
           [Sample.row_key_x "medex"; Sample.row_key_x "artlee"]
           [Sample.row_key_x "medex"]);
    vm_compute; reflexivity.
Defined.

(** ** Further properties of the storage methods *)

(** X16: the conflict the notes report, in general: on a reachable
    database whose profile table is keyed by the user id, the upsert without
    conflict clause fails with a violation of that constraint whenever the
    table already holds a row of the user, and writes nothing. *)
Theorem X16_upsert_without_clause_conflicts `{Externals} (userId : string)
    (apiKeys : ApiKeyFallbackService.ApiKeys)
    (encryptedKeys : ApiKeyFallbackService.EncryptedKeys) (w : World) :
  Supabase.online (cloud w) = true ->
  Supabase.primary_key (Supabase.user_profiles (cloud w)) = ["id"] ->
  Supabase.keyed_by ["user_id"] (Supabase.user_profiles (cloud w)) ->
  Supabase.consistent ["user_id"] (Supabase.user_profiles (cloud w)) ->
  find (fun c => negb (Supabase.mem c
                         (Supabase.schema_cache (Supabase.user_profiles (cloud w)))))
    (map fst (ApiKeyFallbackService.user_profiles_values userId apiKeys encryptedKeys w))
  = None ->
  1 <= Supabase.rows_of_user userId (Supabase.rows (Supabase.user_profiles (cloud w))) ->
  ApiKeyFallbackService.storeInUserProfiles_before_fix userId apiKeys encryptedKeys w
  = (ApiKeyFallbackService.failed
       (PostgrestFailure (Supabase.UniqueViolation ["user_id"])), w).
Proof.
  intros Hon Hpk [Hu Hdef] [Hid Huser] Hfind Hrow.
  unfold ApiKeyFallbackService.storeInUserProfiles_before_fix,
    ApiKeyFallbackService.upsert_user_profiles, Supabase.request, Supabase.upsert.
  rewrite Hon, Hfind. cbn [default]. unfold from_option. rewrite Hpk, Hu.
  cbn [existsb Supabase.cols_eqb String.eqb Ascii.eqb Bool.eqb andb orb negb].
  set (new := list_to_map
                (ApiKeyFallbackService.user_profiles_values userId apiKeys
                   encryptedKeys w) : gmap string JS.json).
  assert (Hnew_id : new !! "id" = None)
    by apply ProfileStoreFacts.values_without_id.
  assert (Hnew_user : new !! "user_id" = Some (JS.JStr userId))
    by apply ProfileStoreFacts.values_user_id.
  unfold Supabase.candidate.
  rewrite (UpsertFacts.no_match_without_id new _ Hnew_id).
  unfold Supabase.first_violation. rewrite Hu. cbn [find].
  rewrite !UpsertFacts.distinct_on_snoc, Hid, Huser. cbn [andb].
  assert (Hid_free : existsb (fun r => Supabase.agree ["id"] r (new ∪ Supabase.defaults
                                 (Supabase.user_profiles (cloud w))))
                       (Supabase.rows (Supabase.user_profiles (cloud w))) = false).
  { apply not_true_is_false. intros Hex.
    apply existsb_exists in Hex as (r & _ & Hr).
    rewrite (UpsertFacts.agree_null_r ["id"] r _ "id") in Hr;
      [discriminate|left; reflexivity|].
    rewrite lookup_union_r by exact Hnew_id. exact Hdef. }
  rewrite Hid_free. cbn [negb].
  assert (Huser_taken :
            existsb (fun r => Supabase.agree ["user_id"] r
                                (new ∪ Supabase.defaults (Supabase.user_profiles (cloud w))))
              (Supabase.rows (Supabase.user_profiles (cloud w))) = true).
  { unfold Supabase.rows_of_user in Hrow.
    destruct (List.filter _ _) as [|r rest] eqn:Hf; [cbn in Hrow; lia|].
    assert (Hin : In r (List.filter
                          (fun r => Supabase.eq_filter r ("user_id", userId))
                          (Supabase.rows (Supabase.user_profiles (cloud w)))))
      by (rewrite Hf; left; reflexivity).
    apply filter_In in Hin as [Hin Hr].
    apply existsb_exists. exists r. split; [exact Hin|].
    rewrite UpsertFacts.agree_sym.
    rewrite (UpsertFacts.agree_user_id _ r userId); [exact Hr|].
    rewrite lookup_union_l' by (rewrite Hnew_user; eauto). exact Hnew_user. }
  rewrite Huser_taken. reflexivity.
Qed.

Lemma X16_witness_second_save :
  let w := Sample.world [] true [Sample.row_key_x "artlee"] in
  @ApiKeyFallbackService.storeInUserProfiles_before_fix Sample.collaborators
    Sample.user_U Sample.keys_abc Sample.encrypted_abc w
  = (ApiKeyFallbackService.failed
       (PostgrestFailure (Supabase.UniqueViolation ["user_id"])), w).
Proof.
  intros w.
  apply (@X16_upsert_without_clause_conflicts Sample.collaborators Sample.user_U
           Sample.keys_abc Sample.encrypted_abc w);
    try reflexivity; split; vm_compute; reflexivity.
Defined.

(** X18: the two writes into the settings table carry no conflict clause
    and no primary key, so they can only insert: when one of them is
    accepted the table holds the rows it held, unchanged, and one more, which
    belongs to the user under the current tenant. *)
Theorem X18_settings_writes_only_append `{Externals} (userId : string)
    (apiKeys : ApiKeyFallbackService.ApiKeys)
    (encryptedKeys : ApiKeyFallbackService.EncryptedKeys) (w : World) :
  Supabase.primary_key (Supabase.user_settings (cloud w)) = ["id"] ->
  Forall (fun r =>
            ApiKeyFallbackService.is_success r.1 = true ->
            exists row,
              Supabase.rows (Supabase.user_settings (cloud r.2))
              = (Supabase.rows (Supabase.user_settings (cloud w)) ++ [row])%list
              /\ row !! "user_id" = Some (JS.JStr userId)
              /\ row !! "tenant_id" = Some (JS.JStr getCurrentTenantId))
    [ApiKeyFallbackService.storePartialInUserProfiles userId apiKeys encryptedKeys w;
     ApiKeyFallbackService.storeInUserSettings userId apiKeys encryptedKeys w].
Proof.
  intros Hpk.
  assert (Hgen : forall values,
            (list_to_map values : gmap string JS.json) !! "id" = None ->
            (list_to_map values : gmap string JS.json) !! "user_id"
            = Some (JS.JStr userId) ->
            (list_to_map values : gmap string JS.json) !! "tenant_id"
            = Some (JS.JStr getCurrentTenantId) ->
            let r := ApiKeyFallbackService.upsert_user_settings values None w in
            ApiKeyFallbackService.is_success r.1 = true ->
            exists row,
              Supabase.rows (Supabase.user_settings (cloud r.2))
              = (Supabase.rows (Supabase.user_settings (cloud w)) ++ [row])%list
              /\ row !! "user_id" = Some (JS.JStr userId)
              /\ row !! "tenant_id" = Some (JS.JStr getCurrentTenantId)).
  { intros values Hid Huser Htenant r. subst r.
    unfold ApiKeyFallbackService.upsert_user_settings, Supabase.request, Supabase.upsert.
    destruct (Supabase.online (cloud w)); [|cbn; discriminate].
    destruct (find _ (map fst values)); [cbn; discriminate|].
    cbn [default]. unfold from_option. rewrite Hpk.
    destruct (negb _); [cbn; discriminate|].
    unfold Supabase.candidate. rewrite (UpsertFacts.no_match_without_id _ _ Hid).
    destruct (Supabase.first_violation _ _); [cbn; discriminate|].
    intros _. cbn. eexists. split; [reflexivity|]. split.
    - rewrite lookup_union_l' by (rewrite Huser; eauto). exact Huser.
    - rewrite lookup_union_l' by (rewrite Htenant; eauto). exact Htenant. }
  repeat constructor.
  - apply Hgen; cbn; rewrite ?lookup_insert_eq; try reflexivity;
      rewrite !lookup_insert_ne by discriminate;
      rewrite ?lookup_insert_eq, ?lookup_empty; reflexivity.
  - apply Hgen; cbn; rewrite ?lookup_insert_eq; try reflexivity;
      rewrite !lookup_insert_ne by discriminate;
      rewrite ?lookup_insert_eq, ?lookup_empty; reflexivity.
Qed.

Lemma X18_witness_fresh_cache :
  let fresh := {| Supabase.rows := [];
                  Supabase.primary_key := ["id"];
                  Supabase.unique := [["id"]; ["user_id"; "tenant_id"]];
                  Supabase.defaults := ∅;
                  Supabase.schema_cache :=
                    ("api_key_updated_at" :: Sample.settings_columns) |} in
  let w := {| browser := Sample.a_browser [];
              cloud := Supabase.with_user_settings fresh (Sample.database true []) |} in
  Forall (fun r =>
            ApiKeyFallbackService.is_success r.1 = true ->
            exists row,
              Supabase.rows (Supabase.user_settings (cloud r.2))
              = (Supabase.rows (Supabase.user_settings (cloud w)) ++ [row])%list
              /\ row !! "user_id" = Some (JS.JStr Sample.user_U)
              /\ row !! "tenant_id" = Some (JS.JStr getCurrentTenantId))
    [@ApiKeyFallbackService.storePartialInUserProfiles Sample.collaborators
       Sample.user_U Sample.keys_abc Sample.encrypted_abc w;
     @ApiKeyFallbackService.storeInUserSettings Sample.collaborators
       Sample.user_U Sample.keys_abc Sample.encrypted_abc w].
Proof.
  intros fresh w.
  apply (@X18_settings_writes_only_append Sample.collaborators Sample.user_U
           Sample.keys_abc Sample.encrypted_abc w).
  reflexivity.
Defined.

(** X19: [storeInLocalStorage] writes one entry, under the key of the
    user: it is accepted exactly when local storage exists and is not full;
    then that key reads back the stored envelope, while the entry of every
    other user, the logout flag, the session storage and the cloud are as
    they were. *)
Theorem X19_local_store_is_per_user `{Externals} (userId : string)
    (encryptedKeys : ApiKeyFallbackService.EncryptedKeys) (w : World) :
  let r := ApiKeyFallbackService.storeInLocalStorage userId encryptedKeys w in
  (ApiKeyFallbackService.is_success r.1 = true <->
   exists ls, Browser.localStorage (browser w) = Some ls
              /\ Browser.quota_exceeded ls = false)
  /\ (ApiKeyFallbackService.is_success r.1 = true ->
      exists envelope,
        Observations.local_get (ApiKeyFallbackService.storageKey userId) r.2
        = Some (JSON_stringify envelope)
        /\ JS.get (Some envelope) "encrypted_keys"
           = Some (ApiKeyFallbackService.keys_object encryptedKeys))
  /\ (forall other, other <> userId ->
        Observations.local_get (ApiKeyFallbackService.storageKey other) r.2
        = Observations.local_get (ApiKeyFallbackService.storageKey other) w)
  /\ justLoggedOut r.2 = justLoggedOut w
  /\ Browser.sessionStorage (browser r.2) = Browser.sessionStorage (browser w)
  /\ cloud r.2 = cloud w.
Proof.
  intros r. subst r. unfold ApiKeyFallbackService.storeInLocalStorage,
    Observations.local_get, justLoggedOut, Browser.setItem, Browser.getItem.
  destruct (Browser.localStorage (browser w)) as [[li lq]|] eqn:Hls.
  2:{ cbn. rewrite Hls. repeat split; try discriminate; try reflexivity.
      intros (ls & Hnone & _). discriminate. }
  cbn [Browser.quota_exceeded Browser.items]. destruct lq; cbn; rewrite ?Hls; cbn.
  - repeat split; try discriminate; try reflexivity.
    intros (ls & [= <-] & Hq). discriminate.
  - split; [split; [intros _; eauto|reflexivity]|].
    split.
    { intros _. eexists. rewrite lookup_insert_eq. split; reflexivity. }
    split.
    { intros other Hne. rewrite lookup_insert_ne; [reflexivity|].
      intros Heq. apply Hne. symmetry. apply ServiceFacts.storageKey_inj. exact Heq. }
    split; [|split; reflexivity].
    rewrite lookup_insert_ne by apply ServiceFacts.storageKey_not_flag. reflexivity.
Qed.

(** X22: the failure on a stale schema cache that the notes report: when
    the cache knows the other columns of the settings table but not
    [api_key_updated_at], both direct writes into that table fail on that
    column and write nothing. *)
Theorem X22_stale_cache_rejects_settings_writes `{Externals} (userId : string)
    (apiKeys : ApiKeyFallbackService.ApiKeys)
    (encryptedKeys : ApiKeyFallbackService.EncryptedKeys) (w : World) :
  Supabase.online (cloud w) = true ->
  (forall c, In c ["user_id"; "tenant_id"; "retell_agent_config";
                   "encrypted_retell_keys"; "retell_config"; "encrypted_api_keys"] ->
             Supabase.mem c (Supabase.schema_cache (Supabase.user_settings (cloud w)))
             = true) ->
  Supabase.mem "api_key_updated_at"
    (Supabase.schema_cache (Supabase.user_settings (cloud w))) = false ->
  ApiKeyFallbackService.storePartialInUserProfiles userId apiKeys encryptedKeys w
  = (ApiKeyFallbackService.failed
       (PostgrestFailure (Supabase.SchemaCacheMiss "api_key_updated_at")), w)
  /\ ApiKeyFallbackService.storeInUserSettings userId apiKeys encryptedKeys w
     = (ApiKeyFallbackService.failed
          (PostgrestFailure (Supabase.SchemaCacheMiss "api_key_updated_at")), w).
Proof.
  intros Hon Hknown Hstale.
  unfold ApiKeyFallbackService.storePartialInUserProfiles,
    ApiKeyFallbackService.storeInUserSettings,
    ApiKeyFallbackService.upsert_user_settings, Supabase.request, Supabase.upsert.
  rewrite Hon. cbn [map fst find].
  split; repeat (rewrite Hknown by (cbn; tauto); cbn [negb]);
    rewrite Hstale; reflexivity.
Qed.

Lemma X22_witness_stale_world :
  @ApiKeyFallbackService.storePartialInUserProfiles Sample.collaborators
    Sample.user_U Sample.keys_abc Sample.encrypted_abc Sample.stale_world
  = (ApiKeyFallbackService.failed
       (PostgrestFailure (Supabase.SchemaCacheMiss "api_key_updated_at")),
     Sample.stale_world)
  /\ @ApiKeyFallbackService.storeInUserSettings Sample.collaborators
       Sample.user_U Sample.keys_abc Sample.encrypted_abc Sample.stale_world
     = (ApiKeyFallbackService.failed
          (PostgrestFailure (Supabase.SchemaCacheMiss "api_key_updated_at")),
        Sample.stale_world).
Proof.
  apply (@X22_stale_cache_rejects_settings_writes Sample.collaborators Sample.user_U
           Sample.keys_abc Sample.encrypted_abc Sample.stale_world).
  - reflexivity.
  - intros c [<-|[<-|[<-|[<-|[<-|[<-|[]]]]]]]; reflexivity.
  - reflexivity.
Defined.

(** ** The stored procedure of the settings table *)

Module RpcFacts.
Import Supabase UpsertFacts CompositeKeyFacts.

Section Values.
Variables (p_user_id : Uuid.t) (p_tenant_id : string) (rc ek NOW : JS.json).

Local Abbreviation values :=
  (list_to_map [("user_id", JS.JStr (Uuid.text p_user_id));
                ("tenant_id", JS.JStr p_tenant_id);
                ("retell_config", rc); ("encrypted_api_keys", ek);
                ("api_key_updated_at", NOW); ("updated_at", NOW)]
   : gmap string JS.json).

Lemma rpc_values_user : values !! "user_id" = Some (JS.JStr (Uuid.text p_user_id)).
Proof. cbn. apply lookup_insert_eq. Qed.

Lemma rpc_values_tenant : values !! "tenant_id" = Some (JS.JStr p_tenant_id).
Proof. cbn. rewrite lookup_insert_ne by discriminate. apply lookup_insert_eq. Qed.

Lemma rpc_values_without_id : values !! "id" = None.
Proof. cbn. rewrite !lookup_insert_ne by discriminate. apply lookup_empty. Qed.

Lemma rpc_values_pair : agree ["user_id"; "tenant_id"] values values = true.
Proof. exact (new_has_pair _ _ _ rpc_values_user rpc_values_tenant). Qed.

(** On a table keyed by the pair the procedure always goes through. *)
Lemma update_user_api_keys_keyed (t : Table) :
  keyed_by ["user_id"; "tenant_id"] t -> consistent ["user_id"; "tenant_id"] t ->
  Rpc.update_user_api_keys p_user_id p_tenant_id rc ek NOW t
  = inr (with_rows (candidate ["user_id"; "tenant_id"] values t) t).
Proof.
  intros Hkeyed Hcons. unfold Rpc.update_user_api_keys.
  destruct (candidate_consistent ["user_id"; "tenant_id"] _ t
              rpc_values_without_id rpc_values_pair Hkeyed Hcons) as [Hc1 Hc2].
  destruct Hkeyed as [Hu _]. unfold first_violation. rewrite Hu.
  cbn [existsb find cols_eqb String.eqb Ascii.eqb Bool.eqb andb orb negb].
  rewrite Hc1, Hc2. reflexivity.
Qed.

End Values.

End RpcFacts.

(** The sample user id is the text of the sample value. *)
Example uuid_U_text : Uuid.text Sample.uuid_U = Sample.user_U.
Proof. vm_compute. reflexivity. Qed.

(** X20: whatever the table holds, the stored procedure is refused only for
    want of the unique constraint on user and tenant or on a violation of a
    unique constraint, never on the schema cache; and when it goes through,
    every row of another user or another tenant and the constraints,
    defaults and schema cache of the table are as they were. *)
Theorem X20_rpc_keeps_other_rows (p_user_id : Uuid.t) (p_tenant_id : string)
    (p_retell_config p_encrypted_api_keys NOW : JS.json) (t : Supabase.Table) :
  match Rpc.update_user_api_keys p_user_id p_tenant_id p_retell_config
          p_encrypted_api_keys NOW t with
  | inr t' =>
      Rpc.rows_of_others (Uuid.text p_user_id) p_tenant_id (Supabase.rows t')
      = Rpc.rows_of_others (Uuid.text p_user_id) p_tenant_id (Supabase.rows t)
      /\ Supabase.primary_key t' = Supabase.primary_key t
      /\ Supabase.unique t' = Supabase.unique t
      /\ Supabase.defaults t' = Supabase.defaults t
      /\ Supabase.schema_cache t' = Supabase.schema_cache t
  | inl e =>
      e = Supabase.NoConflictTarget \/ exists cols, e = Supabase.UniqueViolation cols
  end.
Proof.
  unfold Rpc.update_user_api_keys.
  destruct (negb _); [left; reflexivity|].
  destruct (Supabase.first_violation _ _) as [cols|]; [right; eauto|].
  cbn [Supabase.rows Supabase.with_rows Supabase.primary_key Supabase.unique
       Supabase.defaults Supabase.schema_cache].
  split; [|repeat split].
  apply CompositeKeyFacts.candidate_others;
    [apply RpcFacts.rpc_values_user|apply RpcFacts.rpc_values_tenant].
Qed.

(** X21: on a settings table keyed by user and tenant whose rows respect
    the constraints, the stored procedure goes through, whatever the schema
    cache knows and whether or not a row of the user exists; afterwards the
    table holds exactly one row of the user under the tenant, which carries
    the submitted configuration, the submitted envelope and the time of the
    call, and its rows still respect the constraints, so that the same holds
    of the next call. *)
Theorem X21_rpc_upsert_leaves_one_row (p_user_id : Uuid.t) (p_tenant_id : string)
    (p_retell_config p_encrypted_api_keys NOW : JS.json) (t : Supabase.Table) :
  Supabase.keyed_by ["user_id"; "tenant_id"] t ->
  Supabase.consistent ["user_id"; "tenant_id"] t ->
  exists t' row,
    Rpc.update_user_api_keys p_user_id p_tenant_id p_retell_config
      p_encrypted_api_keys NOW t = inr t'
    /\ Rpc.rows_of (Uuid.text p_user_id) p_tenant_id (Supabase.rows t') = [row]
    /\ row !! "retell_config" = Some p_retell_config
    /\ row !! "encrypted_api_keys" = Some p_encrypted_api_keys
    /\ row !! "api_key_updated_at" = Some NOW
    /\ row !! "updated_at" = Some NOW
    /\ Supabase.keyed_by ["user_id"; "tenant_id"] t'
    /\ Supabase.consistent ["user_id"; "tenant_id"] t'.
Proof.
  intros Hkeyed Hcons.
  rewrite (RpcFacts.update_user_api_keys_keyed _ _ _ _ _ _ Hkeyed Hcons).
  set (new := list_to_map _ : gmap string JS.json).
  assert (Huser : new !! "user_id" = Some (JS.JStr (Uuid.text p_user_id)))
    by apply RpcFacts.rpc_values_user.
  assert (Htenant : new !! "tenant_id" = Some (JS.JStr p_tenant_id))
    by apply RpcFacts.rpc_values_tenant.
  pose proof (CompositeKeyFacts.new_has_pair _ _ _ Huser Htenant) as Hpair.
  pose proof (UpsertFacts.candidate_consistent ["user_id"; "tenant_id"] new _
                (RpcFacts.rpc_values_without_id _ _ _ _ _) Hpair Hkeyed Hcons)
    as Hcons'.
  pose proof (CompositeKeyFacts.rows_of_at_most_one (Uuid.text p_user_id) p_tenant_id new
                Huser Htenant _ (proj2 Hcons')) as Hle.
  pose proof (CompositeKeyFacts.rows_of_at_least_one (Uuid.text p_user_id) p_tenant_id
                new Huser Htenant _
                (UpsertFacts.candidate_has_target ["user_id"; "tenant_id"] new t Hpair))
    as Hge.
  destruct (Rpc.rows_of _ _ (Supabase.candidate _ _ _)) as [|row [|]] eqn:Hrows;
    cbn in Hle, Hge; try lia.
  eexists. exists row. split; [reflexivity|].
  cbn [Supabase.rows Supabase.with_rows]. split; [exact Hrows|].
  assert (Hin : In row (Rpc.rows_of (Uuid.text p_user_id) p_tenant_id
                          (Supabase.candidate ["user_id"; "tenant_id"] new t)))
    by (rewrite Hrows; left; reflexivity).
  unfold Rpc.rows_of in Hin. apply filter_In in Hin as [Hin Hmine].
  assert (Hholds : forall c v, new !! c = Some v -> row !! c = Some v).
  { intros c v. exact (CompositeKeyFacts.candidate_mine_holds (Uuid.text p_user_id)
                         p_tenant_id new Huser Htenant t row c v Hin Hmine). }
  repeat split; try (apply Hholds; subst new; cbn; rewrite ?lookup_insert_eq;
                     try reflexivity; rewrite !lookup_insert_ne by discriminate;
                     rewrite ?lookup_insert_eq; reflexivity);
    first [apply Hkeyed|apply Hcons'].
Qed.

Lemma X21_witness_stale_cache :
  exists t' row,
    Rpc.update_user_api_keys Sample.uuid_U "artlee"
      (JS.JObj [("api_key", JS.JStr "key_abc")])
      (JS.JObj [("retell_api_key", JS.JStr "cbc:key_abc")])
      (JS.JStr "2025-10-28T12:00:00.000Z") (Sample.settings []) = inr t'
    /\ Rpc.rows_of (Uuid.text Sample.uuid_U) "artlee" (Supabase.rows t') = [row]
    /\ row !! "retell_config" = Some (JS.JObj [("api_key", JS.JStr "key_abc")])
    /\ row !! "encrypted_api_keys"
       = Some (JS.JObj [("retell_api_key", JS.JStr "cbc:key_abc")])
    /\ row !! "api_key_updated_at" = Some (JS.JStr "2025-10-28T12:00:00.000Z")
    /\ row !! "updated_at" = Some (JS.JStr "2025-10-28T12:00:00.000Z")
    /\ Supabase.keyed_by ["user_id"; "tenant_id"] t'
    /\ Supabase.consistent ["user_id"; "tenant_id"] t'.
Proof.
  apply (X21_rpc_upsert_leaves_one_row Sample.uuid_U "artlee"
           (JS.JObj [("api_key", JS.JStr "key_abc")])
           (JS.JObj [("retell_api_key", JS.JStr "cbc:key_abc")])
           (JS.JStr "2025-10-28T12:00:00.000Z") (Sample.settings [])).
  - split; [reflexivity|vm_compute; reflexivity].
  - split; reflexivity.
Defined.
